(** * The YouTube trending-video scraper ([Scraper by category.py])

    A shallow embedding of the scraper's pipeline: the sanitizer
    [prepare_feature], the tag serializer [get_tags], the record extractor
    [get_videos], the page fetcher [api_request], the pagination driver
    [get_pages], the writer [write_to_file] and the orchestrator [get_data],
    followed by the properties of each.

    Conventions of the model.
    - A value coming out of [request.json()] is a [json]: [None], a boolean,
      an integer, a string, a list or a dict.  JSON numbers with a fractional
      part are left out.  A dict is an association list in insertion order,
      looked up by its first binding of a key.
    - A character of a Python string is an [ascii]; a string is a [string].
    - An exception is a value of [exn]; code that can raise returns a [res].
    - Code that reaches the network or the disk runs in the monad [M] over
      a [world]; it returns, exits the process or raises.
    - The clock, the network and the disk are the parameters of the section
      [Scraper].  Console output and [time.sleep] are left out. *)

From Stdlib Require Import List String Ascii ZArith Bool Lia DecimalString.
Import ListNotations.
Local Open Scope string_scope.
Set Warnings "-register-all".

(** ** Python values *)

Inductive json : Type :=
| JNull
| JBool (b : bool)
| JInt (z : Z)
| JStr (s : string)
| JArr (l : list json)
| JObj (o : list (string * json)).

Definition dict : Type := list (string * json).

Inductive exn : Type :=
| KeyError (key : string)
| AttributeError
| TypeError.

Inductive res (A : Type) : Type :=
| Ok (a : A)
| Err (e : exn).
Arguments Ok {A} a.
Arguments Err {A} e.

Definition res_bind {A B : Type} (m : res A) (k : A -> res B) : res B :=
  match m with
  | Ok a => k a
  | Err e => Err e
  end.

Declare Scope res_scope.
Delimit Scope res_scope with res.
Notation "x <- m ;; k" := (res_bind m (fun x => k))
  (at level 61, m at next level, right associativity) : res_scope.
Local Open Scope res_scope.

(** ** Strings *)

Definition newline : ascii := "010"%char.
Definition dquote : ascii := "034"%char.

(** [s.replace(old, new)] for a one-character [old]. *)
Fixpoint str_replace (old : ascii) (new : string) (s : string) : string :=
  match s with
  | EmptyString => EmptyString
  | String c s' =>
      if Ascii.eqb c old then new ++ str_replace old new s'
      else String c (str_replace old new s')
  end.

(** [c in s] for a character. *)
Fixpoint occurs (c : ascii) (s : string) : bool :=
  match s with
  | EmptyString => false
  | String c' s' => Ascii.eqb c' c || occurs c s'
  end.

(** [k in s] for strings: [k] is a substring of [s]. *)
Fixpoint str_contains (k s : string) : bool :=
  String.prefix k s ||
  match s with
  | EmptyString => false
  | String _ s' => str_contains k s'
  end.

(** The characters of a string, each as a one-character string. *)
Fixpoint chars (s : string) : list string :=
  match s with
  | EmptyString => []
  | String c s' => String c EmptyString :: chars s'
  end.

(** [sep.join(l)] *)
Definition join (sep : string) (l : list string) : string := String.concat sep l.

(** [str(z)] for an integer: its digits in base ten, after a minus sign
    when it is negative. *)
Definition str_of_int (z : Z) : string := NilZero.string_of_int (Z.to_int z).

(** The characters that [strip] and [rstrip] take off: the white space of
    Python among the characters of the model. *)
Definition is_space (c : ascii) : bool :=
  let n := nat_of_ascii c in
  (Nat.leb 9 n && Nat.leb n 13) || (Nat.leb 28 n && Nat.leb n 31) ||
  Nat.eqb n 32 || Nat.eqb n 133 || Nat.eqb n 160.

(** [s.lstrip()], [s.rstrip()] and [s.strip()] *)
Fixpoint lstrip (s : string) : string :=
  match s with
  | EmptyString => EmptyString
  | String c s' => if is_space c then lstrip s' else s
  end.

Fixpoint rstrip (s : string) : string :=
  match s with
  | EmptyString => EmptyString
  | String c s' =>
      match rstrip s' with
      | EmptyString => if is_space c then EmptyString else String c EmptyString
      | r => String c r
      end
  end.

Definition strip (s : string) : string := rstrip (lstrip s).

(** [file.readline()] on the text of a file: its first line, with the
    newline that ends it. *)
Fixpoint readline (text : string) : string :=
  match text with
  | EmptyString => EmptyString
  | String c text' =>
      if Ascii.eqb c newline then String c EmptyString
      else String c (readline text')
  end.

(** What [for x in file] goes through: the lines of the text, each with the
    newline that ends it. *)
Fixpoint file_lines (text : string) : list string :=
  match text with
  | EmptyString => []
  | String c text' =>
      if Ascii.eqb c newline then String c EmptyString :: file_lines text'
      else
        match file_lines text' with
        | [] => [String c EmptyString]
        | line :: lines => String c line :: lines
        end
  end.

(** ** Dicts *)

Fixpoint dict_lookup (k : string) (d : dict) : option json :=
  match d with
  | [] => None
  | (k', v) :: d' => if String.eqb k' k then Some v else dict_lookup k d'
  end.

Definition dict_mem (k : string) (d : dict) : bool :=
  match dict_lookup k d with
  | Some _ => true
  | None => false
  end.

(** The keys of a dict, each once, in insertion order. *)
Fixpoint dict_keys (d : dict) : list string :=
  match d with
  | [] => []
  | (k, _) :: d' =>
      k :: filter (fun k' => negb (String.eqb k' k)) (dict_keys d')
  end.

Definition dict_get (k : string) (d : dict) (default : json) : json :=
  match dict_lookup k d with
  | Some x => x
  | None => default
  end.

(** ** Python operations on values *)

(** [v.get(k, default)]: only a dict has the method. *)
Definition py_get (v : json) (k : string) (default : json) : res json :=
  match v with
  | JObj d => Ok (dict_get k d default)
  | _ => Err AttributeError
  end.

(** [v[k]] for a string [k]. *)
Definition py_index (v : json) (k : string) : res json :=
  match v with
  | JObj d =>
      match dict_lookup k d with
      | Some x => Ok x
      | None => Err (KeyError k)
      end
  | _ => Err TypeError
  end.

Definition is_str (k : string) (v : json) : bool :=
  match v with
  | JStr s => String.eqb s k
  | _ => false
  end.

(** [k in v] for a string [k]: a key of a dict, an element of a list, a
    substring of a string. *)
Definition py_contains (k : string) (v : json) : res bool :=
  match v with
  | JObj d => Ok (dict_mem k d)
  | JArr l => Ok (existsb (is_str k) l)
  | JStr s => Ok (str_contains k s)
  | _ => Err TypeError
  end.

(** Truth value of [v], as tested by [if not v]. *)
Definition py_truthy (v : json) : bool :=
  match v with
  | JNull => false
  | JBool b => b
  | JInt z => negb (Z.eqb z 0)
  | JStr s => negb (String.eqb s "")
  | JArr l => match l with [] => false | _ => true end
  | JObj d => match d with [] => false | _ => true end
  end.

(** What [for x in v] goes through. *)
Definition py_iter (v : json) : res (list json) :=
  match v with
  | JArr l => Ok l
  | JStr s => Ok (map JStr (chars s))
  | JObj d => Ok (map JStr (dict_keys d))
  | _ => Err TypeError
  end.

Fixpoint all_str (l : list json) : res (list string) :=
  match l with
  | [] => Ok []
  | JStr s :: l' => r <- all_str l' ;; Ok (s :: r)
  | _ :: _ => Err TypeError
  end.

(** [sep.join(v)]: every element gone through must be a string. *)
Definition py_join (sep : string) (v : json) : res string :=
  l <- py_iter v ;;
  ss <- all_str l ;;
  Ok (join sep ss).

(** ** Constants of the script *)

Definition SNIPPET_FEATURES : list string :=
  ["title"; "publishedAt"; "channelId"; "channelTitle"; "categoryId"].

Definition UNSAFE_CHARACTERS : list ascii := [newline; dquote].

Definition HEADER : list string :=
  (["video_id"] ++ SNIPPET_FEATURES ++
   ["trending_date"; "tags"; "view_count"; "likes"; "dislikes";
    "comment_count"; "thumbnail_link"; "comments_disabled";
    "ratings_disabled"; "description"; "duration"])%list.

Definition CATEGORIES : list (string * string) :=
  [("1", "Film & Animation"); ("2", "Autos & Vehicles"); ("10", "Music");
   ("15", "Pets & Animals"); ("17", "Sports"); ("20", "Gaming");
   ("22", "People & Blogs"); ("23", "Comedy"); ("24", "Entertainment");
   ("25", "News & Politics"); ("26", "Howto & Style"); ("27", "Education");
   ("28", "Science & Technology")].

(** The position of a column in [HEADER], and the field of a row's field
    list that stands in that column. *)
Fixpoint index_of (name : string) (l : list string) : nat :=
  match l with
  | [] => 0
  | h :: l' => if String.eqb h name then 0 else S (index_of name l')
  end.

Definition field (name : string) (line : list string) : option string :=
  nth_error line (index_of name HEADER).

Definition quoted (body : string) : string :=
  String dquote (body ++ String dquote EmptyString).

(** ** The process and its world *)

(** What [requests.get] comes back with: a response with its status code
    and its body as [request.json()] gives it, or one of the two exceptions
    that [api_request] catches.  The body is read on the status 200 only. *)
Inductive http_result : Type :=
| Response (status_code : Z) (body : json)
| Timeout
| RequestException.

(** The number of requests sent so far, and the files on the disk, the
    latest written first. *)
Record world : Type := mkWorld {
  calls : nat;
  files : list (string * string)
}.

Inductive outcome (A : Type) : Type :=
| Ret (a : A)
| Exit (status : Z)
| Raise (e : exn)
| OutOfFuel.
Arguments Ret {A} a.
Arguments Exit {A} status.
Arguments Raise {A} e.
Arguments OutOfFuel {A}.

Definition M (A : Type) : Type := world -> outcome A * world.

Definition ret {A : Type} (a : A) : M A := fun w => (Ret a, w).

Definition bind {A B : Type} (m : M A) (k : A -> M B) : M B :=
  fun w =>
    match m w with
    | (Ret a, w') => k a w'
    | (Exit status, w') => (Exit status, w')
    | (Raise e, w') => (Raise e, w')
    | (OutOfFuel, w') => (OutOfFuel, w')
    end.

Definition lift {A : Type} (r : res A) : M A :=
  fun w =>
    match r with
    | Ok a => (Ret a, w)
    | Err e => (Raise e, w)
    end.

(** [sys.exit(arg)]: the exit status is [arg], and zero when there is none. *)
Definition sys_exit {A : Type} (arg : option Z) : M A :=
  fun w =>
    (Exit match arg with
          | Some status => status
          | None => 0%Z
          end, w).

Declare Scope proc_scope.
Delimit Scope proc_scope with proc.
Notation "x <- m ;; k" := (bind m (fun x => k))
  (at level 61, m at next level, right associativity) : proc_scope.
Notation "m ;;; k" := (bind m (fun _ => k))
  (at level 61, right associativity) : proc_scope.

(** The exit status of the interpreter: zero after a normal end, the status
    handed to [sys.exit], one after an exception nobody caught. *)
Definition exit_status {A : Type} (o : outcome A) : option Z :=
  match o with
  | Ret _ => Some 0%Z
  | Exit status => Some status
  | Raise _ => Some 1%Z
  | OutOfFuel => None
  end.

Section Scraper.

(** [time.strftime("%Y-%m-%d")], and [str(v)] of a list or a dict. *)
Variable today : string.
Variable py_repr : json -> string.

(** [str(v)] *)
Definition py_str (v : json) : string :=
  match v with
  | JNull => "None"
  | JBool true => "True"
  | JBool false => "False"
  | JInt z => str_of_int z
  | JStr s => s
  | JArr _ | JObj _ => py_repr v
  end.

(** ** Sanitizer *)

Definition prepare_feature (feature : json) : string :=
  let feature :=
    fold_left (fun feature ch => JStr (str_replace ch "" (py_str feature)))
              UNSAFE_CHARACTERS feature in
  quoted (py_str feature).

(** ** Tags *)

Definition get_tags (tags_list : json) : res string :=
  let tags_list :=
    if negb (py_truthy tags_list) then JArr [JStr "[none]"] else tags_list in
  s <- py_join "|" tags_list ;;
  Ok (prepare_feature (JStr s)).

(** ** Record extractor *)

Fixpoint snippet_features (snippet : json) (features : list string)
  : res (list string) :=
  match features with
  | [] => Ok []
  | feature :: rest =>
      v <- py_get snippet feature (JStr "") ;;
      r <- snippet_features snippet rest ;;
      Ok (prepare_feature v :: r)
  end.

(** The body of the loop of [get_videos]: [None] when the item is skipped,
    otherwise the list [line] of the item's fields. *)
Definition video_line (video : json) : res (option (list string)) :=
  has_statistics <- py_contains "statistics" video ;;
  if negb has_statistics then Ok None else
  id <- py_index video "id" ;;
  let video_id := prepare_feature id in
  contentDetails <- py_get video "contentDetails" (JObj []) ;;
  duration <- py_get contentDetails "duration" (JStr "") ;;
  snippet <- py_index video "snippet" ;;
  statistics <- py_index video "statistics" ;;
  features <- snippet_features snippet SNIPPET_FEATURES ;;
  description <- py_get snippet "description" (JStr "") ;;
  thumbnails <- py_get snippet "thumbnails" (JObj []) ;;
  default <- py_get thumbnails "default" (JObj []) ;;
  thumbnail_link <- py_get default "url" (JStr "") ;;
  let trending_date := JStr today in
  tags_list <- py_get snippet "tags" (JArr []) ;;
  tags <- get_tags tags_list ;;
  view_count <- py_get statistics "viewCount" (JInt 0) ;;
  has_likes <- py_contains "likeCount" statistics ;;
  rating <-
    (if has_likes then
       likes <- py_index statistics "likeCount" ;;
       dislikes <- py_get statistics "dislikeCount" (JInt 0) ;;
       Ok (false, likes, dislikes)
     else Ok (true, JInt 0, JInt 0)) ;;
  let '(ratings_disabled, likes, dislikes) := rating in
  has_comments <- py_contains "commentCount" statistics ;;
  commenting <-
    (if has_comments then
       comment_count <- py_index statistics "commentCount" ;;
       Ok (false, comment_count)
     else Ok (true, JInt 0)) ;;
  let '(comments_disabled, comment_count) := commenting in
  Ok (Some ([video_id] ++ features ++
            map prepare_feature
              [trending_date; JStr tags; view_count; likes; dislikes;
               comment_count; thumbnail_link; JBool comments_disabled;
               JBool ratings_disabled; description; duration])%list).

Fixpoint get_videos_loop (items : list json) (lines : list string)
  : res (list string) :=
  match items with
  | [] => Ok lines
  | video :: rest =>
      r <- video_line video ;;
      match r with
      | None => get_videos_loop rest lines
      | Some line => get_videos_loop rest (lines ++ [join "," line])%list
      end
  end.

Definition get_videos (items : json) : res (list string) :=
  l <- py_iter items ;;
  get_videos_loop l [].

(** ** The world's parameters *)

(** The world's answer to the [n]-th request, and whether a file of a given
    path can be written. *)
Variable api : nat -> string -> http_result.
Variable disk_ok : string -> bool.

Local Open Scope proc_scope.

(** ** Page fetcher *)

Definition request_url (page_token country_code api_key : string)
    (category_id : option string) : string :=
  let category_param :=
    match category_id with
    | Some id => if String.eqb id "" then "" else "&videoCategoryId=" ++ id
    | None => ""
    end in
  "https://www.googleapis.com/youtube/v3/videos?" ++
  "part=id,statistics,snippet,contentDetails&" ++
  page_token ++
  "chart=mostPopular&" ++
  "regionCode=" ++ country_code ++ "&" ++
  "maxResults=50" ++
  category_param ++ "&" ++
  "key=" ++ api_key.

Definition requests_get (url : string) : M http_result :=
  fun w => (Ret (api (calls w) url), mkWorld (S (calls w)) (files w)).

(** [None] is [JNull]. *)
Definition api_request (page_token country_code api_key : string)
    (category_id : option string) : M json :=
  request <- requests_get (request_url page_token country_code api_key category_id) ;;
  match request with
  | Response status_code body =>
      if Z.eqb status_code 429 then sys_exit None
      else if Z.eqb status_code 403 then sys_exit (Some 1%Z)
      else if negb (Z.eqb status_code 200) then ret JNull
      else ret body
  | Timeout => ret JNull
  | RequestException => ret JNull
  end.

(** ** Pagination driver *)

Definition is_none (v : json) : bool :=
  match v with
  | JNull => true
  | _ => false
  end.

Definition page_token_param (next_page_token : json) : option string :=
  if is_none next_page_token then None
  else Some ("pageToken=" ++ py_str next_page_token ++ "&").

(** The [while] loop of [get_pages]; [fuel] bounds the number of fetches. *)
Fixpoint get_pages_loop (fuel : nat) (country_code api_key : string)
    (category_id : option string) (next_page_token : option string)
    (country_data : list string) : M (list string) :=
  match next_page_token with
  | None => ret country_data
  | Some token =>
      match fuel with
      | O => fun w => (OutOfFuel, w)
      | S fuel' =>
          video_data_page <- api_request token country_code api_key category_id ;;
          if is_none video_data_page then ret country_data
          else
            next_page_token <- lift (py_get video_data_page "nextPageToken" JNull) ;;
            let next_page_token := page_token_param next_page_token in
            items <- lift (py_get video_data_page "items" (JArr [])) ;;
            rows <- lift (get_videos items) ;;
            get_pages_loop fuel' country_code api_key category_id
              next_page_token (country_data ++ rows)%list
      end
  end.

Definition get_pages (fuel : nat) (country_code api_key : string)
    (category_id : option string) : M (list string) :=
  get_pages_loop fuel country_code api_key category_id (Some "&") [].

(** ** Writer *)

Definition file_name (country_code output_dir : string)
    (category_name : option string) : string :=
  let category_suffix :=
    match category_name with
    | Some name =>
        if String.eqb name "" then ""
        else "_" ++ str_replace "&" "and" (str_replace " " "_" name)
    | None => ""
    end in
  output_dir ++ "/" ++ today ++ "_" ++ country_code ++ category_suffix ++
  "_videos.csv".

Definition file_text (country_data : list string) : string :=
  String.concat "" (map (fun row => row ++ String newline EmptyString) country_data).

(** A failure of the disk is caught inside and reported; the file is then
    taken as not written. *)
Definition write_to_file (country_code : string) (country_data : list string)
    (output_dir : string) (category_id category_name : option string) : M unit :=
  fun w =>
    let filename := file_name country_code output_dir category_name in
    if disk_ok filename then
      (Ret tt, mkWorld (calls w) ((filename, file_text country_data) :: files w))
    else (Ret tt, w).

(** ** Orchestrator *)

Definition header_row : string := join "," HEADER.

(** One turn of the loop over the categories. *)
Definition collect_category (fuel : nat) (country_code api_key output_dir : string)
    (category : string * string) : M unit :=
  let '(category_id, category_name) := category in
  rows <- get_pages fuel country_code api_key (Some category_id) ;;
  let country_data := header_row :: rows in
  if Nat.ltb 1 (List.length country_data) then
    write_to_file country_code country_data output_dir
      (Some category_id) (Some category_name)
  else ret tt.

Fixpoint collect_categories (fuel : nat) (country_code api_key output_dir : string)
    (categories : list (string * string)) : M unit :=
  match categories with
  | [] => ret tt
  | category :: rest =>
      collect_category fuel country_code api_key output_dir category ;;;
      collect_categories fuel country_code api_key output_dir rest
  end.

(** One turn of the loop over the country codes. *)
Definition collect_country (fuel : nat) (api_key output_dir : string)
    (collect_by_category : bool) (country_code : string) : M unit :=
  if collect_by_category then
    collect_categories fuel country_code api_key output_dir CATEGORIES
  else
    rows <- get_pages fuel country_code api_key None ;;
    let country_data := header_row :: rows in
    write_to_file country_code country_data output_dir None None.

Fixpoint get_data (fuel : nat) (country_codes : list string)
    (api_key output_dir : string) (collect_by_category : bool) : M unit :=
  match country_codes with
  | [] => ret tt
  | country_code :: rest =>
      collect_country fuel api_key output_dir collect_by_category country_code ;;;
      get_data fuel rest api_key output_dir collect_by_category
  end.

(** ** Setup and the script *)

(** The text of a file that [open] and the reads give, [None] when one of
    them raises. *)
Variable read_file : string -> option string.

(** Every exception inside [setup] ends in [sys.exit(1)]. *)
Definition setup (api_path code_path : string) : M (string * list string) :=
  match read_file api_path with
  | None => sys_exit (Some 1%Z)
  | Some text =>
      let api_key := strip (readline text) in
      if String.eqb api_key "" then sys_exit (Some 1%Z)
      else
        match read_file code_path with
        | None => sys_exit (Some 1%Z)
        | Some text =>
            let country_codes :=
              map rstrip
                (filter (fun x => negb (String.eqb (strip x) ""))
                        (file_lines text)) in
            match country_codes with
            | [] => sys_exit (Some 1%Z)
            | _ => ret (api_key, country_codes)
            end
        end
  end.

(** The script after [parse_args], on the four values of [args]. *)
Definition main (fuel : nat) (key_path country_code_path output_dir : string)
    (by_category : bool) : M unit :=
  p <- setup key_path country_code_path ;;
  let '(api_key, country_codes) := p in
  get_data fuel country_codes api_key output_dir by_category.

(** * Vocabulary of the properties *)

(** What is left of a value between the quotes. *)
Definition body_of (feature : json) : string :=
  str_replace dquote "" (str_replace newline "" (py_str feature)).

(** A field is sanitized when it is a body without newline and without
    double quote, between two double quotes. *)
Definition sanitized (s : string) : Prop :=
  exists body,
    s = String dquote (body ++ String dquote EmptyString) /\
    occurs newline body = false /\
    occurs dquote body = false.

(** [v.get(k, default)] where [v] is a dict, [default] elsewhere. *)
Definition nav (v : json) (k : string) (default : json) : json :=
  match v with
  | JObj d => dict_get k d default
  | _ => default
  end.

Definition has_key (k : string) (v : json) : bool :=
  match v with
  | JObj d => dict_mem k d
  | _ => false
  end.

Definition is_dict (v : json) : bool :=
  match v with
  | JObj _ => true
  | _ => false
  end.

Definition is_string (v : json) : bool :=
  match v with
  | JStr _ => true
  | _ => false
  end.

(** The values that [get_tags] serializes without raising. *)
Definition joinable (tags_list : json) : bool :=
  negb (py_truthy tags_list) ||
  match tags_list with
  | JArr l => forallb is_string l
  | JStr _ | JObj _ => true
  | _ => false
  end.

Definition tags_text (tags_list : json) : string :=
  match get_tags tags_list with
  | Ok s => s
  | Err _ => ""
  end.

(** The row of an item as the header schema describes it: each column of
    [HEADER], in order, with the value the item gives it. *)
Definition row_record (video : json) : dict :=
  let snippet := nav video "snippet" JNull in
  let statistics := nav video "statistics" JNull in
  let ratings_disabled := negb (has_key "likeCount" statistics) in
  let comments_disabled := negb (has_key "commentCount" statistics) in
  [ ("video_id", nav video "id" JNull);
    ("title", nav snippet "title" (JStr ""));
    ("publishedAt", nav snippet "publishedAt" (JStr ""));
    ("channelId", nav snippet "channelId" (JStr ""));
    ("channelTitle", nav snippet "channelTitle" (JStr ""));
    ("categoryId", nav snippet "categoryId" (JStr ""));
    ("trending_date", JStr today);
    ("tags", JStr (tags_text (nav snippet "tags" (JArr []))));
    ("view_count", nav statistics "viewCount" (JInt 0));
    ("likes",
     if ratings_disabled then JInt 0 else nav statistics "likeCount" JNull);
    ("dislikes",
     if ratings_disabled then JInt 0
     else nav statistics "dislikeCount" (JInt 0));
    ("comment_count",
     if comments_disabled then JInt 0
     else nav statistics "commentCount" JNull);
    ("thumbnail_link",
     nav (nav (nav snippet "thumbnails" (JObj [])) "default" (JObj []))
         "url" (JStr ""));
    ("comments_disabled", JBool comments_disabled);
    ("ratings_disabled", JBool ratings_disabled);
    ("description", nav snippet "description" (JStr ""));
    ("duration", nav (nav video "contentDetails" (JObj [])) "duration" (JStr "")) ].

Definition expected_line (video : json) : list string :=
  map (fun column => prepare_feature (snd column)) (row_record video).

(** The items with a statistics entry that the extractor turns into a row:
    [id] and [snippet] are there, and [snippet], [statistics] and, where
    present, [contentDetails], [thumbnails] and [default] are dicts, and
    the tags can be joined. *)
Definition well_shaped (video : json) : bool :=
  let snippet := nav video "snippet" JNull in
  let thumbnails := nav snippet "thumbnails" (JObj []) in
  has_key "id" video &&
  is_dict (nav video "contentDetails" (JObj [])) &&
  is_dict snippet &&
  is_dict thumbnails &&
  is_dict (nav thumbnails "default" (JObj [])) &&
  joinable (nav snippet "tags" (JArr [])) &&
  is_dict (nav video "statistics" JNull).

(** The items and the continuation token of a page. *)
Definition page_items (page : dict) : json := dict_get "items" page (JArr []).

Definition page_next (page : dict) : json := dict_get "nextPageToken" page JNull.

(** The fetch-local failures: a timeout, a transport error, a status that
    is neither 200 nor 429 nor 403. *)
Definition is_local_failure (r : http_result) : bool :=
  match r with
  | Timeout | RequestException => true
  | Response status_code _ =>
      negb (Z.eqb status_code 200) && negb (Z.eqb status_code 429) &&
      negb (Z.eqb status_code 403)
  end.

(** [fetched cc key cat n token pages rows n' token']: from its [n]-th
    request on, asked with the parameter [token], the world serves [pages]
    one after the other, each with status 200 and a continuation token;
    their items give [rows]; the request that comes next is the [n']-th,
    with the parameter [token']. *)
Inductive fetched (country_code api_key : string) (category_id : option string)
  : nat -> string -> list dict -> list string -> nat -> string -> Prop :=
| fetched_none (n : nat) (token : string) :
    fetched country_code api_key category_id n token [] [] n token
| fetched_page (n : nat) (token : string) (page : dict) (pages : list dict)
    (rows1 rows2 : list string) (next : string) (n' : nat) (token' : string) :
    api n (request_url token country_code api_key category_id)
      = Response 200 (JObj page) ->
    page_token_param (page_next page) = Some next ->
    get_videos (page_items page) = Ok rows1 ->
    fetched country_code api_key category_id (S n) next pages rows2 n' token' ->
    fetched country_code api_key category_id n token (page :: pages)
      (rows1 ++ rows2)%list n' token'.

(** The rows of an extraction that has not raised. *)
Definition rows_of (r : res (list string)) : list string :=
  match r with
  | Ok rows => rows
  | Err _ => []
  end.

(** The characters that the sanitizer keeps, and the string of the kept
    characters of a string. *)
Definition safe_char (c : ascii) : bool :=
  negb (Ascii.eqb c newline) && negb (Ascii.eqb c dquote).

Fixpoint str_filter (p : ascii -> bool) (s : string) : string :=
  match s with
  | EmptyString => EmptyString
  | String c s' => if p c then String c (str_filter p s') else str_filter p s'
  end.

(** A reader of rows: a field runs from a double quote to the next one,
    what stands between two fields is passed over.  [cur] is the body read
    so far of the field that is open. *)
Fixpoint split_row_from (row : string) (cur : option string) : list string :=
  match row with
  | EmptyString => []
  | String c rest =>
      match cur with
      | None =>
          if Ascii.eqb c dquote then split_row_from rest (Some EmptyString)
          else split_row_from rest None
      | Some body =>
          if Ascii.eqb c dquote then quoted body :: split_row_from rest None
          else split_row_from rest (Some (body ++ String c EmptyString))
      end
  end.

Definition split_row (row : string) : list string := split_row_from row None.

(** A row of the table: one sanitized field per column, joined by commas. *)
Definition table_row (row : string) : Prop :=
  exists line,
    row = join "," line /\
    List.length line = List.length HEADER /\
    Forall sanitized line.

(** The part of a file name that comes from the name of a category. *)
Definition category_suffix (category_name : option string) : string :=
  match category_name with
  | Some name =>
      if String.eqb name "" then ""
      else "_" ++ str_replace "&" "and" (str_replace " " "_" name)
  | None => ""
  end.



(** A text with no newline but, at most, as its last character. *)
Fixpoint single_line (s : string) : bool :=
  match s with
  | EmptyString => true
  | String c s' =>
      if Ascii.eqb c newline then String.eqb s' "" else single_line s'
  end.

(** * Sample inputs *)

Definition sample_today : string := "2024-05-01".

Definition sample_repr (v : json) : string := "[...]".

(** An item with nothing but an empty [statistics]. *)
Definition item_only_statistics : json := JObj [("statistics", JObj [])].

(** A removed video: no [statistics]. *)
Definition item_removed : json := JObj [("id", JStr "gone")].

(** A video with ratings disabled and the tags [a] and [b]. *)
Definition sample_item : json :=
  JObj [("id", JStr "v1");
        ("snippet",
         JObj [("title", JStr "First, video"); ("channelId", JStr "c1");
               ("tags", JArr [JStr "a"; JStr "b"])]);
        ("statistics",
         JObj [("viewCount", JStr "10"); ("commentCount", JStr "3")])].

(** A video with comments disabled and no tags. *)
Definition sample_item_untagged : json :=
  JObj [("id", JStr "v2");
        ("snippet", JObj [("title", JStr "Second")]);
        ("statistics",
         JObj [("viewCount", JStr "7"); ("likeCount", JStr "2")])].

(** Three pages, chained by the tokens [T2] and [T3]. *)
Definition page1 : dict :=
  [("nextPageToken", JStr "T2"); ("items", JArr [sample_item; item_removed])].

Definition page2 : dict :=
  [("items", JArr [sample_item_untagged]); ("nextPageToken", JStr "T3")].

Definition page3 : dict := [("items", JArr [sample_item])].

(** A simulated endpoint for the country [US] and the key [KEY]: it serves
    the page that the token of the request asks for. *)
Definition api_three_pages (n : nat) (url : string) : http_result :=
  if String.eqb url (request_url "&" "US" "KEY" None)
  then Response 200 (JObj page1)
  else if String.eqb url (request_url "pageToken=T2&" "US" "KEY" None)
  then Response 200 (JObj page2)
  else if String.eqb url (request_url "pageToken=T3&" "US" "KEY" None)
  then Response 200 (JObj page3)
  else Response 400 JNull.

(** The same endpoint with its second page answered by [status]. *)
Definition api_second_page_status (status : Z) (n : nat) (url : string)
  : http_result :=
  if String.eqb url (request_url "pageToken=T2&" "US" "KEY" None)
  then Response status JNull
  else api_three_pages n url.

(** An endpoint that has no video for anyone. *)
Definition api_no_video (n : nat) (url : string) : http_result :=
  Response 200 (JObj [("items", JArr [])]).

(** An endpoint that answers every request with [status]. *)
Definition api_always_status (status : Z) (n : nat) (url : string)
  : http_result :=
  Response status JNull.

Definition disk_yes (path : string) : bool := true.

(** An endpoint whose every answer is a page without items and with the
    token [T]. *)
Definition api_endless (n : nat) (url : string) : http_result :=
  Response 200 (JObj [("nextPageToken", JStr "T")]).

(** A key file with the key on its first line, one with the key on its
    second line, and a file of country codes with a blank line. *)
Definition sample_key_text : string :=
  " KEY " ++ String newline "second line".

Definition sample_late_key_text : string := String newline "KEY".

Definition sample_codes_text : string :=
  "US" ++ String newline (String newline (" GB  " ++ String newline "")).

Definition sample_files (path : string) : option string :=
  if String.eqb path "api_key.txt" then Some sample_key_text
  else if String.eqb path "late_key.txt" then Some sample_late_key_text
  else if String.eqb path "country_codes.txt" then Some sample_codes_text
  else None.

(** * Properties *)

(** ** Sanitizer *)

Lemma occurs_app (c : ascii) (a b : string) :
  occurs c (a ++ b) = occurs c a || occurs c b.
Proof.
  induction a as [|x a IH]; simpl; [reflexivity|].
  rewrite IH. apply orb_assoc.
Qed.

Lemma occurs_removed (ch : ascii) (s : string) :
  occurs ch (str_replace ch "" s) = false.
Proof.
  induction s as [|c s IH]; simpl; [reflexivity|].
  destruct (Ascii.eqb c ch) eqn:E; simpl; [exact IH|].
  rewrite E, IH. reflexivity.
Qed.

Lemma occurs_after_replace (c ch : ascii) (s : string) :
  occurs c s = false -> occurs c (str_replace ch "" s) = false.
Proof.
  induction s as [|x s IH]; simpl; intros H; [reflexivity|].
  apply orb_false_iff in H. destruct H as [Hx Hs].
  destruct (Ascii.eqb x ch); simpl; [auto|].
  rewrite Hx. simpl. auto.
Qed.

Lemma str_replace_absent (ch : ascii) (s : string) :
  occurs ch s = false -> str_replace ch "" s = s.
Proof.
  induction s as [|x s IH]; simpl; intros H; [reflexivity|].
  apply orb_false_iff in H. destruct H as [Hx Hs].
  rewrite Hx, IH by exact Hs. reflexivity.
Qed.

Lemma str_replace_app (ch : ascii) (a b : string) :
  str_replace ch "" (a ++ b) = str_replace ch "" a ++ str_replace ch "" b.
Proof.
  induction a as [|x a IH]; simpl; [reflexivity|].
  destruct (Ascii.eqb x ch); simpl; rewrite IH; reflexivity.
Qed.

Lemma prepare_feature_eq (feature : json) :
  prepare_feature feature = quoted (body_of feature).
Proof. reflexivity. Qed.

Lemma body_of_clean (feature : json) :
  occurs newline (body_of feature) = false /\
  occurs dquote (body_of feature) = false.
Proof.
  unfold body_of. split.
  - apply occurs_after_replace, occurs_removed.
  - apply occurs_removed.
Qed.

Lemma body_of_quoted (body : string) :
  occurs newline body = false -> occurs dquote body = false ->
  body_of (JStr (quoted body)) = body.
Proof.
  intros Hn Hq. unfold body_of, quoted. simpl py_str.
  assert (E : str_replace newline ""
                (String dquote (body ++ String dquote EmptyString))
              = String dquote (body ++ String dquote EmptyString)).
  { apply str_replace_absent. simpl. rewrite occurs_app, Hn. reflexivity. }
  rewrite E. simpl. rewrite str_replace_app. simpl.
  rewrite str_replace_absent by exact Hq.
  clear. induction body as [|c b IH]; simpl; [reflexivity|].
  rewrite IH. reflexivity.
Qed.

Lemma prepare_feature_twice (feature : json) :
  prepare_feature (JStr (prepare_feature feature)) = prepare_feature feature.
Proof.
  rewrite !prepare_feature_eq.
  destruct (body_of_clean feature) as [Hn Hq].
  rewrite body_of_quoted by assumption. reflexivity.
Qed.

Lemma prepare_feature_is_sanitized (feature : json) :
  sanitized (prepare_feature feature).
Proof.
  exists (body_of feature). split; [reflexivity|]. apply body_of_clean.
Qed.

(** C6. The sanitizer is total, and for every value, a string, an integer
    or a boolean among them, its output is a body between two double
    quotes, with no newline anywhere in the output and, between the two
    enclosing quotes, no double quote. *)
Theorem prepare_feature_strips_and_quotes (feature : json) :
  exists body,
    prepare_feature feature = String dquote (body ++ String dquote EmptyString) /\
    occurs newline body = false /\
    occurs dquote body = false /\
    occurs newline (prepare_feature feature) = false.
Proof.
  exists (body_of feature).
  destruct (body_of_clean feature) as [Hn Hq].
  repeat split; try assumption.
  rewrite prepare_feature_eq. unfold quoted. simpl.
  rewrite occurs_app, Hn. reflexivity.
Qed.

(** ** Tags *)

Lemma all_str_strings (l : list json) :
  forallb is_string l = true -> exists ss, all_str l = Ok ss.
Proof.
  induction l as [|v l IH]; simpl; intros H.
  - exists []. reflexivity.
  - apply andb_prop in H. destruct H as [Hv Hl].
    destruct v; try discriminate.
    destruct (IH Hl) as [ss E]. exists (s :: ss). rewrite E. reflexivity.
Qed.

Lemma all_str_inv (l : list json) (ss : list string) :
  all_str l = Ok ss -> forallb is_string l = true.
Proof.
  revert ss. induction l as [|v l IH]; simpl; intros ss H; [reflexivity|].
  destruct v; try discriminate.
  destruct (all_str l) as [r|] eqn:E; [|discriminate].
  simpl. eapply IH. reflexivity.
Qed.

Lemma all_str_map_JStr (ss : list string) : all_str (map JStr ss) = Ok ss.
Proof.
  induction ss as [|x ss IH]; simpl; [reflexivity|].
  rewrite IH. reflexivity.
Qed.

Lemma get_tags_joinable (tags_list : json) :
  joinable tags_list = true -> exists tags, get_tags tags_list = Ok tags.
Proof.
  unfold joinable, get_tags, py_join. intros H.
  destruct (py_truthy tags_list) eqn:T; simpl in *.
  - destruct tags_list; try discriminate; simpl.
    + rewrite all_str_map_JStr. eexists. reflexivity.
    + destruct (all_str_strings l H) as [ss E]. rewrite E. eexists. reflexivity.
    + rewrite all_str_map_JStr. eexists. reflexivity.
  - eexists. reflexivity.
Qed.

Lemma get_tags_inv (tags_list : json) (tags : string) :
  get_tags tags_list = Ok tags -> joinable tags_list = true.
Proof.
  unfold joinable, get_tags, py_join.
  destruct (py_truthy tags_list) eqn:T; simpl; [|reflexivity].
  destruct tags_list; simpl; try discriminate; try reflexivity.
  destruct (all_str l) as [ss|] eqn:E; [|discriminate].
  intros _. eapply all_str_inv. exact E.
Qed.

(** ** Record extractor *)

Lemma snippet_features_dict (sn : dict) (features : list string) :
  snippet_features (JObj sn) features =
  Ok (map (fun feature => prepare_feature (dict_get feature sn (JStr ""))) features).
Proof.
  induction features as [|f fs IH]; simpl; [reflexivity|].
  rewrite IH. reflexivity.
Qed.

Lemma snippet_features_inv (snippet : json) (r : list string) :
  snippet_features snippet SNIPPET_FEATURES = Ok r -> is_dict snippet = true.
Proof. destruct snippet; simpl; try discriminate. reflexivity. Qed.

Ltac split_andb H :=
  repeat match type of H with
         | (_ && _)%bool = true =>
             let H' := fresh "W" in
             apply andb_prop in H; destruct H as [H H']
         end.

Lemma is_dict_inv (v : json) : is_dict v = true -> exists o, v = JObj o.
Proof. destruct v; try discriminate. intros _. eexists. reflexivity. Qed.

Lemma dict_mem_lookup (k : string) (d : dict) :
  dict_mem k d = true -> exists v, dict_lookup k d = Some v.
Proof.
  unfold dict_mem. destruct (dict_lookup k d) as [v|]; [|discriminate].
  intros _. exists v. reflexivity.
Qed.

Lemma dict_get_of_lookup (k : string) (d : dict) (v default : json) :
  dict_lookup k d = Some v -> dict_get k d default = v.
Proof. unfold dict_get. intros ->. reflexivity. Qed.

Lemma dict_mem_of_lookup (k : string) (d : dict) (v : json) :
  dict_lookup k d = Some v -> dict_mem k d = true.
Proof. unfold dict_mem. intros ->. reflexivity. Qed.

Lemma dict_get_dict (k : string) (d o : dict) :
  dict_get k d JNull = JObj o -> dict_lookup k d = Some (JObj o).
Proof.
  unfold dict_get. destruct (dict_lookup k d); [|discriminate].
  intros ->. reflexivity.
Qed.

Lemma video_line_well_shaped (video : json) :
  has_key "statistics" video = true ->
  well_shaped video = true ->
  video_line video = Ok (Some (expected_line video)).
Proof.
  intros Hs Hw. destruct video as [| | | | |d]; try discriminate.
  unfold well_shaped in Hw. split_andb Hw.
  cbn [nav has_key] in *.
  destruct (dict_mem_lookup _ _ Hw) as [id Lid].
  destruct (is_dict_inv _ W) as [st Est].
  destruct (is_dict_inv _ W3) as [sn Esn]. rewrite Esn in *.
  cbn [nav] in *.
  destruct (is_dict_inv _ W2) as [th Eth]. rewrite Eth in *.
  cbn [nav] in *.
  destruct (is_dict_inv _ W1) as [df Edf].
  destruct (is_dict_inv _ W4) as [cd Ecd].
  destruct (get_tags_joinable _ W0) as [tags Etags].
  pose proof (dict_get_dict _ _ _ Esn) as Lsn.
  pose proof (dict_get_dict _ _ _ Est) as Lst.
  unfold video_line, expected_line, row_record, tags_text.
  repeat first
    [ progress cbn [py_contains py_index py_get res_bind nav has_key negb]
    | rewrite Hs | rewrite Lid | rewrite Lsn | rewrite Lst | rewrite Ecd
    | rewrite Esn | rewrite Est | rewrite Eth | rewrite Edf | rewrite Etags
    | rewrite snippet_features_dict ].
  replace (dict_get "id" d JNull) with id
    by (unfold dict_get; rewrite Lid; reflexivity).
  unfold dict_get, dict_mem.
  destruct (dict_lookup "likeCount" st), (dict_lookup "commentCount" st);
    reflexivity.
Qed.

Lemma py_get_inv (v : json) (k : string) (default x : json) :
  py_get v k default = Ok x -> exists d, v = JObj d /\ x = dict_get k d default.
Proof.
  destruct v; try discriminate. cbn. intros [= <-]. eexists. split; reflexivity.
Qed.

Lemma py_index_inv (v : json) (k : string) (x : json) :
  py_index v k = Ok x -> exists d, v = JObj d /\ dict_lookup k d = Some x.
Proof.
  destruct v; try discriminate. cbn.
  destruct (dict_lookup k o) as [y|] eqn:E; [|discriminate].
  intros [= <-]. eexists. split; [reflexivity | exact E].
Qed.

(** Walks through the binds of a computation that has returned. *)
Ltac run_binds H :=
  repeat match type of H with
         | res_bind ?m _ = Ok _ =>
             let E := fresh "E" in
             destruct m eqn:E; cbn [res_bind] in H; [|discriminate H]
         | (if negb ?b then _ else _) = Ok _ =>
             destruct b; cbn [negb] in H
         | (let '(_, _) := ?p in _) = Ok _ => destruct p
         end.

Lemma video_line_inv (video : json) (line : list string) :
  video_line video = Ok (Some line) ->
  has_key "statistics" video = true /\ well_shaped video = true.
Proof.
  unfold video_line. intros H. run_binds H; try discriminate H.
  repeat match goal with
         | E : py_index _ _ = Ok _ |- _ =>
             apply py_index_inv in E; destruct E as (? & ? & E)
         | E : py_get _ _ _ = Ok _ |- _ =>
             apply py_get_inv in E; destruct E as (? & ? & E)
         | E : snippet_features _ _ = Ok _ |- _ => clear E
         | E : get_tags _ = Ok _ |- _ => apply get_tags_inv in E
         end.
  subst.
  repeat match goal with
         | E : JObj _ = JObj _ |- _ => injection E as E; subst
         end.
  cbn [py_contains] in *.
  match goal with E : Ok _ = Ok true |- _ => injection E as E end.
  split; [exact E|].
  unfold well_shaped. cbn [nav has_key].
  repeat match goal with
         | L : dict_lookup ?k ?d = Some ?v |- _ =>
             rewrite ?(dict_get_of_lookup k d v _ L);
             rewrite ?(dict_mem_of_lookup k d v L); clear L
         end.
  repeat first
    [ progress cbn [nav is_dict andb]
    | match goal with
      | L : dict_get _ _ _ = JObj _ |- _ => rewrite L
      end ].
  rewrite andb_true_r. assumption.
Qed.

Lemma video_line_emitted (video : json) (line : list string) :
  video_line video = Ok (Some line) ->
  line = expected_line video /\
  has_key "statistics" video = true /\ well_shaped video = true.
Proof.
  intros H. destruct (video_line_inv _ _ H) as [Hs Hw].
  rewrite (video_line_well_shaped _ Hs Hw) in H.
  injection H as <-. auto.
Qed.

Lemma video_line_skipped (video : json) :
  is_dict video = true -> has_key "statistics" video = false ->
  video_line video = Ok None.
Proof.
  destruct video; try discriminate. intros _ H. unfold video_line.
  cbn [py_contains res_bind has_key] in *. rewrite H. reflexivity.
Qed.

Lemma get_videos_one (video : json) :
  get_videos (JArr [video]) =
  (r <- video_line video ;;
   Ok match r with
      | None => []
      | Some line => [join "," line]
      end)%res.
Proof.
  unfold get_videos. cbn [py_iter res_bind get_videos_loop].
  destruct (video_line video) as [[line|]|]; reflexivity.
Qed.

Lemma row_record_columns (video : json) :
  map fst (row_record video) = HEADER.
Proof. reflexivity. Qed.

Lemma expected_line_sanitized (video : json) :
  Forall sanitized (expected_line video).
Proof.
  unfold expected_line. apply Forall_forall. intros x Hx.
  apply in_map_iff in Hx. destruct Hx as (c & <- & _).
  apply prepare_feature_is_sanitized.
Qed.

Lemma field_expected_line (name : string) (video : json) :
  field name (expected_line video) =
  match nth_error (row_record video) (index_of name HEADER) with
  | Some column => Some (prepare_feature (snd column))
  | None => None
  end.
Proof.
  unfold field, expected_line. rewrite nth_error_map.
  destruct (nth_error _ _); reflexivity.
Qed.

(** C1, as the code has it.  An item that is a dict is skipped when it has
    no [statistics]; with [statistics], a well-shaped item gives exactly one
    row, the join of one sanitized field per column of [HEADER] in the
    order of [HEADER]; with [statistics], an item that is not well-shaped
    (no [id], no [snippet], a sub-structure that is not a dict, tags that
    are not strings) makes the extractor raise, and no row comes out. *)
Theorem get_videos_row_or_skip_or_raise (video : json) :
  is_dict video = true ->
  (has_key "statistics" video = false ->
   get_videos (JArr [video]) = Ok []) /\
  (has_key "statistics" video = true -> well_shaped video = true ->
   get_videos (JArr [video]) = Ok [join "," (expected_line video)] /\
   map fst (row_record video) = HEADER /\
   List.length (expected_line video) = List.length HEADER /\
   Forall sanitized (expected_line video)) /\
  (has_key "statistics" video = true -> well_shaped video = false ->
   exists e, get_videos (JArr [video]) = Err e).
Proof.
  intros Hd. repeat split.
  - intros Hs. rewrite get_videos_one, video_line_skipped by assumption.
    reflexivity.
  - rewrite get_videos_one, video_line_well_shaped by assumption.
    reflexivity.
  - apply expected_line_sanitized.
  - intros Hs Hw. rewrite get_videos_one.
    destruct (video_line video) as [[line|]|e] eqn:E.
    + apply video_line_inv in E. destruct E as [_ E]. congruence.
    + exfalso. destruct video; try discriminate.
      unfold video_line in E. cbn [py_contains res_bind has_key] in *.
      rewrite Hs in E. cbn [negb] in E.
      run_binds E; discriminate E.
    + exists e. reflexivity.
Qed.

(** C3. In the row of an item, the [ratings_disabled] field is the
    sanitized [True] exactly when the item's [statistics] has no
    [likeCount], and then the [likes] and [dislikes] fields are both the
    sanitized [0], whatever else the item holds. *)
Theorem ratings_disabled_iff_no_like_count (video : json) (line : list string) :
  video_line video = Ok (Some line) ->
  (field "ratings_disabled" line = Some (prepare_feature (JBool true)) <->
   has_key "likeCount" (nav video "statistics" JNull) = false) /\
  (field "ratings_disabled" line = Some (prepare_feature (JBool true)) ->
   field "likes" line = Some (prepare_feature (JInt 0)) /\
   field "dislikes" line = Some (prepare_feature (JInt 0))).
Proof.
  intros H. apply video_line_emitted in H. destruct H as (-> & _ & _).
  rewrite !field_expected_line. cbn [index_of HEADER nth_error row_record snd].
  change (nth_error (row_record video) (index_of "ratings_disabled" HEADER))
    with (Some ("ratings_disabled",
                JBool (negb (has_key "likeCount" (nav video "statistics" JNull))))).
  change (nth_error (row_record video) (index_of "likes" HEADER))
    with (Some ("likes",
                if negb (has_key "likeCount" (nav video "statistics" JNull))
                then JInt 0
                else nav (nav video "statistics" JNull) "likeCount" JNull)).
  change (nth_error (row_record video) (index_of "dislikes" HEADER))
    with (Some ("dislikes",
                if negb (has_key "likeCount" (nav video "statistics" JNull))
                then JInt 0
                else nav (nav video "statistics" JNull) "dislikeCount" (JInt 0))).
  cbn [snd].
  destruct (has_key "likeCount" (nav video "statistics" JNull)); cbn [negb];
    repeat split; intros; try reflexivity; try discriminate.
Qed.

(** C4. In the row of an item, the [comments_disabled] field is the
    sanitized [True] exactly when the item's [statistics] has no
    [commentCount], and then the [comment_count] field is the sanitized
    [0]. *)
Theorem comments_disabled_iff_no_comment_count (video : json) (line : list string) :
  video_line video = Ok (Some line) ->
  (field "comments_disabled" line = Some (prepare_feature (JBool true)) <->
   has_key "commentCount" (nav video "statistics" JNull) = false) /\
  (field "comments_disabled" line = Some (prepare_feature (JBool true)) ->
   field "comment_count" line = Some (prepare_feature (JInt 0))).
Proof.
  intros H. apply video_line_emitted in H. destruct H as (-> & _ & _).
  rewrite !field_expected_line.
  change (nth_error (row_record video) (index_of "comments_disabled" HEADER))
    with (Some ("comments_disabled",
                JBool (negb (has_key "commentCount" (nav video "statistics" JNull))))).
  change (nth_error (row_record video) (index_of "comment_count" HEADER))
    with (Some ("comment_count",
                if negb (has_key "commentCount" (nav video "statistics" JNull))
                then JInt 0
                else nav (nav video "statistics" JNull) "commentCount" JNull)).
  cbn [snd].
  destruct (has_key "commentCount" (nav video "statistics" JNull)); cbn [negb];
    repeat split; intros; try reflexivity; try discriminate.
Qed.

Lemma field_tags (video : json) (line : list string) :
  video_line video = Ok (Some line) ->
  exists tags,
    get_tags (nav (nav video "snippet" JNull) "tags" (JArr [])) = Ok tags /\
    field "tags" line = Some (prepare_feature (JStr tags)).
Proof.
  intros H. apply video_line_emitted in H. destruct H as (-> & _ & Hw).
  unfold well_shaped in Hw. split_andb Hw.
  destruct (get_tags_joinable _ W0) as [tags E].
  exists tags. split; [exact E|].
  rewrite field_expected_line.
  change (nth_error (row_record video) (index_of "tags" HEADER))
    with (Some ("tags",
                JStr (tags_text (nav (nav video "snippet" JNull) "tags" (JArr []))))).
  cbn [snd]. unfold tags_text. rewrite E. reflexivity.
Qed.

(** C5. In the row of an item, the tags field is the sanitized [[none]]
    when the item's tag list is empty (or the snippet has none), and the
    sanitized [a|b] when the tag list is [a], [b]. *)
Theorem tags_field_of_row (video : json) (line : list string) :
  video_line video = Ok (Some line) ->
  (nav (nav video "snippet" JNull) "tags" (JArr []) = JArr [] ->
   field "tags" line = Some (prepare_feature (JStr "[none]"))) /\
  (forall a b : string,
     nav (nav video "snippet" JNull) "tags" (JArr []) = JArr [JStr a; JStr b] ->
     field "tags" line = Some (prepare_feature (JStr (a ++ "|" ++ b)))).
Proof.
  intros H. destruct (field_tags _ _ H) as (tags & E & F).
  rewrite F. split.
  - intros T. rewrite T in E. injection E as <-.
    rewrite prepare_feature_twice. reflexivity.
  - intros a b T. rewrite T in E. injection E as <-.
    rewrite prepare_feature_twice. reflexivity.
Qed.

(** C10. Sanitizing the output of the sanitizer gives that output back;
    so the tags field of a row, sanitized once in [get_tags] and once more
    when the row is put together, is what [get_tags] returned. *)
Theorem prepare_feature_idempotent :
  (forall feature : json,
     prepare_feature (JStr (prepare_feature feature)) = prepare_feature feature) /\
  (forall (video : json) (line : list string) (tags : string),
     video_line video = Ok (Some line) ->
     get_tags (nav (nav video "snippet" JNull) "tags" (JArr [])) = Ok tags ->
     field "tags" line = Some tags).
Proof.
  split; [exact prepare_feature_twice|].
  intros video line tags H T.
  destruct (field_tags _ _ H) as (tags' & E & F).
  rewrite T in E. injection E as <-. rewrite F.
  unfold get_tags in T. destruct (py_join _ _) as [s|]; [|discriminate].
  injection T as <-. rewrite prepare_feature_twice. reflexivity.
Qed.

(** ** Page fetcher *)

Lemma api_request_200 (token cc key : string) (cat : option string)
    (body : json) (w : world) :
  api (calls w) (request_url token cc key cat) = Response 200 body ->
  api_request token cc key cat w = (Ret body, mkWorld (S (calls w)) (files w)).
Proof.
  intros H. unfold api_request, bind, requests_get. rewrite H. reflexivity.
Qed.

Lemma api_request_local_failure (token cc key : string) (cat : option string)
    (w : world) :
  is_local_failure (api (calls w) (request_url token cc key cat)) = true ->
  api_request token cc key cat w = (Ret JNull, mkWorld (S (calls w)) (files w)).
Proof.
  intros H. unfold api_request, bind, requests_get.
  destruct (api (calls w) _) as [status body| |]; try reflexivity.
  cbn [is_local_failure] in H. split_andb H.
  apply negb_true_iff in H, W, W0. rewrite H, W, W0. reflexivity.
Qed.

Lemma api_request_fatal (token cc key : string) (cat : option string)
    (body : json) (w : world) (status_code : Z) :
  api (calls w) (request_url token cc key cat) = Response status_code body ->
  (status_code = 429%Z ->
   api_request token cc key cat w = (Exit 0, mkWorld (S (calls w)) (files w))) /\
  (status_code = 403%Z ->
   api_request token cc key cat w = (Exit 1, mkWorld (S (calls w)) (files w))).
Proof.
  intros H. unfold api_request, bind, requests_get. rewrite H.
  split; intros ->; reflexivity.
Qed.

(** ** Pagination driver *)

Lemma get_pages_loop_done (fuel : nat) (cc key : string) (cat : option string)
    (acc : list string) (w : world) :
  get_pages_loop fuel cc key cat None acc w = (Ret acc, w).
Proof. destruct fuel; reflexivity. Qed.

Lemma get_pages_loop_page (fuel : nat) (cc key : string) (cat : option string)
    (token : string) (acc : list string) (w : world) (page : dict)
    (rows : list string) :
  api (calls w) (request_url token cc key cat) = Response 200 (JObj page) ->
  get_videos (page_items page) = Ok rows ->
  get_pages_loop (S fuel) cc key cat (Some token) acc w =
  get_pages_loop fuel cc key cat (page_token_param (page_next page))
    (acc ++ rows)%list (mkWorld (S (calls w)) (files w)).
Proof.
  intros Hapi Hrows. cbn [get_pages_loop]. unfold bind at 1.
  rewrite (api_request_200 _ _ _ _ _ _ Hapi). cbn [is_none].
  unfold bind, lift. cbn [py_get]. fold (page_items page).
  rewrite Hrows. reflexivity.
Qed.

Lemma get_pages_loop_failure (fuel : nat) (cc key : string) (cat : option string)
    (token : string) (acc : list string) (w : world) :
  is_local_failure (api (calls w) (request_url token cc key cat)) = true ->
  get_pages_loop (S fuel) cc key cat (Some token) acc w =
  (Ret acc, mkWorld (S (calls w)) (files w)).
Proof.
  intros H. cbn [get_pages_loop]. unfold bind.
  rewrite (api_request_local_failure _ _ _ _ _ H). reflexivity.
Qed.

(** A 429 or a 403 ends the loop, and the process with it: the rows
    gathered so far are dropped. *)
Lemma get_pages_loop_fatal (fuel : nat) (cc key : string) (cat : option string)
    (token : string) (acc : list string) (w : world) (status_code : Z)
    (body : json) :
  api (calls w) (request_url token cc key cat) = Response status_code body ->
  (status_code = 429%Z ->
   get_pages_loop (S fuel) cc key cat (Some token) acc w =
   (Exit 0, mkWorld (S (calls w)) (files w))) /\
  (status_code = 403%Z ->
   get_pages_loop (S fuel) cc key cat (Some token) acc w =
   (Exit 1, mkWorld (S (calls w)) (files w))).
Proof.
  intros H. destruct (api_request_fatal _ _ _ _ _ _ _ H) as [H429 H403].
  split; intros E; cbn [get_pages_loop]; unfold bind;
    [rewrite (H429 E) | rewrite (H403 E)]; reflexivity.
Qed.

Lemma get_pages_loop_fetched (cc key : string) (cat : option string)
    (n : nat) (token : string) (pages : list dict) (rows : list string)
    (n' : nat) (token' : string) :
  fetched cc key cat n token pages rows n' token' ->
  forall (fuel : nat) (acc : list string) (fs : list (string * string)),
    get_pages_loop (List.length pages + fuel) cc key cat (Some token) acc
      (mkWorld n fs) =
    get_pages_loop fuel cc key cat (Some token') (acc ++ rows)%list
      (mkWorld n' fs).
Proof.
  induction 1 as [n token | n token page pages rows1 rows2 next n' token'
                              Hapi Hnext Hrows _ IH];
    intros fuel acc fs.
  - rewrite app_nil_r. reflexivity.
  - cbn [List.length Nat.add].
    rewrite (get_pages_loop_page _ _ _ _ _ _ _ page rows1) by assumption.
    rewrite Hnext. cbn [calls files]. rewrite IH, app_assoc. reflexivity.
Qed.

Lemma get_pages_loop_files (fuel : nat) (cc key : string) (cat : option string)
    (token : option string) (acc : list string) (w : world) :
  files (snd (get_pages_loop fuel cc key cat token acc w)) = files w.
Proof.
  revert token acc w. induction fuel as [|fuel IH]; intros [token|] acc w;
    try reflexivity.
  cbn [get_pages_loop]. unfold bind at 1.
  unfold api_request, bind, requests_get.
  destruct (api (calls w) _) as [status body| |]; try reflexivity.
  destruct (Z.eqb status 429); [reflexivity|].
  destruct (Z.eqb status 403); [reflexivity|].
  destruct (negb (Z.eqb status 200)); [reflexivity|]. cbn [ret].
  destruct (is_none body); [reflexivity|].
  unfold lift.
  destruct (py_get body "nextPageToken" JNull); [|reflexivity].
  destruct (py_get body "items" (JArr [])); [|reflexivity].
  destruct (get_videos a0); [|reflexivity].
  rewrite IH. reflexivity.
Qed.

(** C2. When the first request, sent without a token, is answered by a page
    that carries the token [t2], the request with [t2] by a page that
    carries [t3], and the request with [t3] by a page without a token, the
    driver returns the rows of the first page, then those of the second,
    then those of the third, and has sent three requests: the page
    without a token ends the loop. *)
Theorem get_pages_three_pages (fuel : nat) (cc key : string)
    (cat : option string) (w : world) (p1 p2 p3 : dict) (t2 t3 : string)
    (rows1 rows2 rows3 : list string) :
  api (calls w) (request_url "&" cc key cat) = Response 200 (JObj p1) ->
  page_next p1 = JStr t2 ->
  api (1 + calls w) (request_url ("pageToken=" ++ t2 ++ "&") cc key cat)
    = Response 200 (JObj p2) ->
  page_next p2 = JStr t3 ->
  api (2 + calls w) (request_url ("pageToken=" ++ t3 ++ "&") cc key cat)
    = Response 200 (JObj p3) ->
  page_next p3 = JNull ->
  get_videos (page_items p1) = Ok rows1 ->
  get_videos (page_items p2) = Ok rows2 ->
  get_videos (page_items p3) = Ok rows3 ->
  get_pages (3 + fuel) cc key cat w =
  (Ret (rows1 ++ rows2 ++ rows3)%list, mkWorld (3 + calls w) (files w)).
Proof.
  intros A1 N1 A2 N2 A3 N3 R1 R2 R3. unfold get_pages.
  cbn [Nat.add].
  rewrite (get_pages_loop_page _ _ _ _ _ _ _ p1 rows1) by assumption.
  rewrite N1. cbn [page_token_param is_none py_str].
  rewrite (get_pages_loop_page _ _ _ _ _ _ _ p2 rows2) by assumption.
  rewrite N2. cbn [page_token_param is_none py_str calls files].
  rewrite (get_pages_loop_page _ _ _ _ _ _ _ p3 rows3) by assumption.
  rewrite N3. cbn [page_token_param is_none calls files].
  rewrite get_pages_loop_done. rewrite <- app_assoc. reflexivity.
Qed.

(** ** Orchestrator *)

Lemma bind_ret {A B : Type} (m : M A) (k : A -> M B) (w w1 : world) (a : A) :
  m w = (Ret a, w1) -> bind m k w = k a w1.
Proof. intros H. unfold bind. rewrite H. reflexivity. Qed.

(** An exit inside the pagination of a country ends [get_data]: no file is
    written for it and no other country is visited. *)
Lemma get_data_exit (fuel : nat) (cc key out : string) (rest : list string)
    (w w1 : world) (status : Z) :
  (get_pages fuel cc key None w = (Exit status, w1) ->
   get_data fuel (cc :: rest) key out false w = (Exit status, w1)) /\
  (get_pages fuel cc key (Some "1") w = (Exit status, w1) ->
   get_data fuel (cc :: rest) key out true w = (Exit status, w1)).
Proof.
  split; intros H; cbn [get_data]; unfold collect_country.
  - unfold bind at 1 2. rewrite H. reflexivity.
  - cbn [CATEGORIES collect_categories]. unfold collect_category.
    unfold bind at 1 2 3. rewrite H. reflexivity.
Qed.

(** C8. When the world serves some pages and then answers the next request
    with a fetch-local failure, the driver sends no request after the
    failed one and returns the rows of the pages served before it; the run
    goes on: without categories, with the file of this country and then
    the next countries; with categories, with the file of this category
    (when it has rows) and then the next categories. *)
Theorem get_pages_stops_at_local_failure (fuel : nat) (cc key : string)
    (cat : option string) (w : world) (pages : list dict) (rows : list string)
    (n' : nat) (token' : string) :
  fetched cc key cat (calls w) "&" pages rows n' token' ->
  is_local_failure (api n' (request_url token' cc key cat)) = true ->
  let budget := S (List.length pages) + fuel in
  let w1 := mkWorld (S n') (files w) in
  get_pages budget cc key cat w = (Ret rows, w1) /\
  (cat = None ->
   forall (rest : list string) (out : string),
     get_data budget (cc :: rest) key out false w =
     (write_to_file cc (header_row :: rows) out None None ;;;
      get_data budget rest key out false) w1) /\
  (forall (cid cname : string) (rest : list (string * string)) (out : string),
     cat = Some cid ->
     collect_categories budget cc key out ((cid, cname) :: rest) w =
     ((if Nat.ltb 1 (List.length (header_row :: rows))
       then write_to_file cc (header_row :: rows) out (Some cid) (Some cname)
       else ret tt) ;;;
      collect_categories budget cc key out rest) w1).
Proof.
  intros Hf Hfail budget w1.
  assert (Hgp : get_pages budget cc key cat w = (Ret rows, w1)).
  { unfold get_pages, budget, w1. destruct w as [n fs]. cbn [calls files] in *.
    replace (S (List.length pages) + fuel) with (List.length pages + S fuel)
      by lia.
    rewrite (get_pages_loop_fetched _ _ _ _ _ _ _ _ _ Hf).
    rewrite get_pages_loop_failure by exact Hfail. reflexivity. }
  split; [exact Hgp|]. split.
  - intros -> rest out. cbn [get_data]. unfold collect_country.
    unfold bind at 1 2. rewrite Hgp. reflexivity.
  - intros cid cname rest out ->. cbn [collect_categories].
    unfold collect_category. unfold bind at 1 2. rewrite Hgp. reflexivity.
Qed.

(** C9. When the pagination of a country yields no row: with categories,
    the turn of that category ends with the files as they were; without
    categories, the writer is handed the header alone, and the file of the
    country, when the disk takes it, holds the header line and nothing
    else. *)
Theorem empty_pagination_file_policy (fuel : nat) (cc key out : string)
    (w w1 : world) :
  (forall cid cname : string,
     get_pages fuel cc key (Some cid) w = (Ret [], w1) ->
     collect_category fuel cc key out (cid, cname) w = (Ret tt, w1) /\
     files w1 = files w) /\
  (get_pages fuel cc key None w = (Ret [], w1) ->
   collect_country fuel key out false cc w =
     write_to_file cc [header_row] out None None w1 /\
   fst (collect_country fuel key out false cc w) = Ret tt /\
   (disk_ok (file_name cc out None) = true ->
    files (snd (collect_country fuel key out false cc w)) =
    (file_name cc out None, header_row ++ String newline EmptyString)
      :: files w)).
Proof.
  split.
  - intros cid cname H. split.
    + unfold collect_category. rewrite (bind_ret _ _ _ _ _ H). reflexivity.
    + pose proof (get_pages_loop_files fuel cc key (Some cid) (Some "&") [] w) as F.
      fold (get_pages fuel cc key (Some cid)) in F. rewrite H in F. exact F.
  - intros H.
    assert (E : collect_country fuel key out false cc w =
                write_to_file cc [header_row] out None None w1).
    { unfold collect_country. rewrite (bind_ret _ _ _ _ _ H). reflexivity. }
    pose proof (get_pages_loop_files fuel cc key None (Some "&") [] w) as F.
    fold (get_pages fuel cc key None) in F. rewrite H in F. cbn [snd] in F.
    rewrite E. unfold write_to_file. repeat split.
    + destruct (disk_ok _); reflexivity.
    + intros D. rewrite D. cbn [snd files file_text map String.concat].
      rewrite F. reflexivity.
Qed.

(** * Further properties *)

(** ** Sanitizer *)

Lemma str_replace_filter (ch : ascii) (s : string) :
  str_replace ch "" s = str_filter (fun c => negb (Ascii.eqb c ch)) s.
Proof.
  induction s as [|c s IH]; simpl; [reflexivity|].
  destruct (Ascii.eqb c ch); simpl; rewrite IH; reflexivity.
Qed.

Lemma str_filter_twice (p q : ascii -> bool) (s : string) :
  str_filter p (str_filter q s) = str_filter (fun c => q c && p c) s.
Proof.
  induction s as [|c s IH]; simpl; [reflexivity|].
  destruct (q c); simpl; [destruct (p c)|]; rewrite IH; reflexivity.
Qed.

Lemma str_filter_all (p : ascii -> bool) (s : string) :
  (forall c, occurs c s = true -> p c = true) -> str_filter p s = s.
Proof.
  induction s as [|c s IH]; simpl; intros H; [reflexivity|].
  rewrite (H c) by (rewrite Ascii.eqb_refl; reflexivity).
  rewrite IH; [reflexivity|].
  intros c' Hc'. apply H. rewrite Hc'. apply orb_true_r.
Qed.

Lemma safe_char_of_absent (s : string) (c : ascii) :
  occurs newline s = false -> occurs dquote s = false ->
  occurs c s = true -> safe_char c = true.
Proof.
  intros Hn Hq Hc. unfold safe_char.
  destruct (Ascii.eqb c newline) eqn:En.
  - apply Ascii.eqb_eq in En. subst c. congruence.
  - destruct (Ascii.eqb c dquote) eqn:Eq; [|reflexivity].
    apply Ascii.eqb_eq in Eq. subst c. congruence.
Qed.

(** X1. Between its two quotes the sanitizer keeps every character of the
    text of the value but the newlines and the double quotes, in their
    order; a string without them comes back as it is. *)
Theorem prepare_feature_keeps_the_rest (feature : json) :
  prepare_feature feature = quoted (str_filter safe_char (py_str feature)) /\
  (forall s : string,
     occurs newline s = false -> occurs dquote s = false ->
     prepare_feature (JStr s) = quoted s).
Proof.
  assert (E : forall v, prepare_feature v = quoted (str_filter safe_char (py_str v))).
  { intros v. rewrite prepare_feature_eq. unfold body_of.
    rewrite !str_replace_filter, str_filter_twice. reflexivity. }
  split; [apply E|].
  intros s Hn Hq. rewrite E. cbn [py_str].
  rewrite str_filter_all; [reflexivity|].
  intros c. apply safe_char_of_absent; assumption.
Qed.

(** ** Rows *)

Lemma split_row_body (body rest acc : string) :
  occurs dquote body = false ->
  split_row_from (body ++ String dquote rest) (Some acc) =
  quoted (acc ++ body) :: split_row_from rest None.
Proof.
  revert acc. induction body as [|c body IH]; intros acc H.
  - cbn [append split_row_from]. rewrite Ascii.eqb_refl.
    replace (acc ++ "") with acc; [reflexivity|].
    clear. induction acc as [|x acc IH]; simpl; congruence.
  - cbn in H. apply orb_false_iff in H. destruct H as [Hc Hb].
    cbn [append split_row_from]. rewrite Hc. rewrite IH by exact Hb.
    replace ((acc ++ String c "") ++ body) with (acc ++ String c body);
      [reflexivity|].
    clear. induction acc as [|x acc IH]; simpl; congruence.
Qed.

Lemma app_assoc_str (a b c : string) : (a ++ b) ++ c = a ++ (b ++ c).
Proof. induction a as [|x a IH]; simpl; congruence. Qed.

Lemma split_row_field (field rest : string) :
  sanitized field ->
  split_row_from (field ++ rest) None = field :: split_row_from rest None.
Proof.
  intros (body & -> & _ & Hq).
  cbn [append split_row_from]. rewrite Ascii.eqb_refl.
  rewrite app_assoc_str. cbn [append].
  rewrite split_row_body by exact Hq. reflexivity.
Qed.

Lemma split_row_join (line : list string) :
  Forall sanitized line -> split_row (join "," line) = line.
Proof.
  unfold split_row, join. induction 1 as [|x l Hx Hl IH]; [reflexivity|].
  destruct l as [|y l].
  - cbn [String.concat].
    replace x with (x ++ "") at 1
      by (clear; induction x as [|c x IH]; simpl; congruence).
    rewrite split_row_field by exact Hx. reflexivity.
  - change (String.concat "," (x :: y :: l))
      with (x ++ String "," (String.concat "," (y :: l))).
    rewrite split_row_field by exact Hx.
    cbn [split_row_from]. change (Ascii.eqb "," dquote) with false.
    cbn iota. rewrite IH. reflexivity.
Qed.

(** X2. The fields of a row can be read back: reading the row of an item
    from quote to quote gives its seventeen fields, whatever commas they
    hold; so two items with the same row have the same fields. *)
Theorem row_fields_read_back (video : json) (line : list string) :
  video_line video = Ok (Some line) ->
  split_row (join "," line) = line /\
  List.length (split_row (join "," line)) = 17 /\
  (forall (video' : json) (line' : list string),
     video_line video' = Ok (Some line') ->
     join "," line = join "," line' -> line = line').
Proof.
  intros H.
  assert (S : forall v l, video_line v = Ok (Some l) ->
                          split_row (join "," l) = l).
  { intros v l Hv. apply split_row_join.
    apply video_line_emitted in Hv. destruct Hv as (-> & _).
    apply expected_line_sanitized. }
  split; [exact (S _ _ H)|]. split.
  - rewrite (S _ _ H). apply video_line_emitted in H.
    destruct H as (-> & _). reflexivity.
  - intros video' line' H' E.
    rewrite <- (S _ _ H), <- (S _ _ H'), E. reflexivity.
Qed.

Lemma occurs_concat (c : ascii) (sep : string) (l : list string) :
  occurs c sep = false -> Forall (fun x => occurs c x = false) l ->
  occurs c (String.concat sep l) = false.
Proof.
  intros Hsep. induction 1 as [|x l Hx Hl IH]; [reflexivity|].
  destruct l as [|y l]; [exact Hx|].
  change (String.concat sep (x :: y :: l))
    with (x ++ sep ++ String.concat sep (y :: l)).
  rewrite !occurs_app, Hx, Hsep, IH. reflexivity.
Qed.

Lemma sanitized_no_newline (x : string) :
  sanitized x -> occurs newline x = false.
Proof.
  intros (body & -> & Hn & _). cbn [occurs].
  rewrite occurs_app, Hn. reflexivity.
Qed.

Lemma video_line_row (video : json) (line : list string) :
  video_line video = Ok (Some line) ->
  table_row (join "," line) /\ occurs newline (join "," line) = false.
Proof.
  intros H. apply video_line_emitted in H. destruct H as (-> & _).
  pose proof (expected_line_sanitized video) as Hs. split.
  - exists (expected_line video). repeat split. exact Hs.
  - apply occurs_concat; [reflexivity|].
    eapply Forall_impl; [|exact Hs]. apply sanitized_no_newline.
Qed.

Lemma get_videos_loop_acc (items : list json) (acc : list string) :
  get_videos_loop items acc =
  (rows <- get_videos_loop items [] ;; Ok (acc ++ rows)%list)%res.
Proof.
  revert acc. induction items as [|v items IH]; intros acc.
  - cbn. rewrite app_nil_r. reflexivity.
  - cbn [get_videos_loop].
    destruct (video_line v) as [[line|]|e]; cbn [res_bind]; try reflexivity.
    + rewrite (IH (acc ++ [join "," line])%list), (IH ([] ++ [join "," line])%list).
      destruct (get_videos_loop items []); cbn [res_bind]; [|reflexivity].
      rewrite <- app_assoc. reflexivity.
    + apply IH.
Qed.

Lemma get_videos_loop_cons (v : json) (items : list json) :
  get_videos_loop (v :: items) [] =
  (r <- video_line v ;;
   rows <- get_videos_loop items [] ;;
   Ok (match r with
       | None => rows
       | Some line => join "," line :: rows
       end))%res.
Proof.
  cbn [get_videos_loop].
  destruct (video_line v) as [[line|]|e]; cbn [res_bind]; try reflexivity.
  - rewrite get_videos_loop_acc.
    destruct (get_videos_loop items []); reflexivity.
  - destruct (get_videos_loop items []); reflexivity.
Qed.

Lemma get_videos_rows_ok (items : json) (rows : list string) :
  get_videos items = Ok rows ->
  Forall table_row rows /\
  Forall (fun row => occurs newline row = false) rows.
Proof.
  unfold get_videos. destruct (py_iter items) as [l|]; [|discriminate].
  cbn [res_bind]. clear items. revert rows.
  induction l as [|v l IH]; intros rows H.
  - injection H as <-. split; constructor.
  - rewrite get_videos_loop_cons in H.
    destruct (video_line v) as [r|] eqn:Ev; [|discriminate].
    cbn [res_bind] in H.
    destruct (get_videos_loop l []) as [rows'|]; [|discriminate].
    cbn [res_bind] in H. injection H as <-.
    destruct (IH rows' eq_refl) as [IH1 IH2].
    destruct r as [line|]; [|split; assumption].
    destruct (video_line_row _ _ Ev) as [T N].
    split; constructor; assumption.
Qed.

(** X3. Whatever the items, every row that the extractor returns is a row
    of the table, one sanitized field for each of the seventeen columns,
    holds no newline, and reads back from quote to quote as seventeen
    fields. *)
Theorem get_videos_rows_are_table_rows (items : json) (rows : list string) :
  get_videos items = Ok rows ->
  Forall table_row rows /\
  Forall (fun row => occurs newline row = false) rows /\
  Forall (fun row => List.length (split_row row) = List.length HEADER) rows.
Proof.
  intros H. destruct (get_videos_rows_ok _ _ H) as [T N].
  split; [exact T|]. split; [exact N|].
  eapply Forall_impl; [|exact T].
  intros row (line & -> & L & Hs).
  rewrite split_row_join by exact Hs. exact L.
Qed.

(** X4. The rows of a list of items are the rows of its first part followed
    by the rows of the rest; an item that makes the extractor raise, in
    either part, leaves no row of the list. *)
Theorem get_videos_app (l1 l2 : list json) :
  get_videos (JArr (l1 ++ l2)) =
  (rows1 <- get_videos (JArr l1) ;;
   rows2 <- get_videos (JArr l2) ;;
   Ok (rows1 ++ rows2)%list)%res.
Proof.
  unfold get_videos. cbn [py_iter res_bind].
  induction l1 as [|v l1 IH].
  - cbn. destruct (get_videos_loop l2 []); reflexivity.
  - change ((v :: l1) ++ l2)%list with (v :: (l1 ++ l2))%list.
    rewrite !get_videos_loop_cons, IH.
    destruct (video_line v) as [r|]; cbn [res_bind]; [|reflexivity].
    destruct (get_videos_loop l1 []) as [rows1|]; cbn [res_bind]; [|reflexivity].
    destruct (get_videos_loop l2 []) as [rows2|]; cbn [res_bind]; [|reflexivity].
    destruct r; reflexivity.
Qed.

Lemma video_line_none (video : json) :
  video_line video = Ok None -> has_key "statistics" video = false.
Proof.
  unfold video_line. intros H.
  destruct (py_contains "statistics" video) as [b|] eqn:E; [|discriminate].
  cbn [res_bind] in H. destruct b; cbn [negb] in H.
  - run_binds H; discriminate H.
  - destruct video; try reflexivity. cbn in E. injection E as E. exact E.
Qed.

(** X5. When the extractor returns, it has dropped the items without
    [statistics] and no other: the rows are as many as the items with
    [statistics]. *)
Theorem get_videos_drops_items_without_statistics (l : list json)
    (rows : list string) :
  get_videos (JArr l) = Ok rows ->
  List.length rows = List.length (filter (has_key "statistics") l).
Proof.
  unfold get_videos. cbn [py_iter res_bind]. revert rows.
  induction l as [|v l IH]; intros rows H.
  - injection H as <-. reflexivity.
  - rewrite get_videos_loop_cons in H.
    destruct (video_line v) as [r|] eqn:Ev; [|discriminate].
    cbn [res_bind] in H.
    destruct (get_videos_loop l []) as [rows'|]; [|discriminate].
    cbn [res_bind] in H. injection H as <-.
    cbn [filter]. destruct r as [line|].
    + apply video_line_inv in Ev. destruct Ev as [-> _].
      cbn [List.length]. rewrite (IH rows' eq_refl). reflexivity.
    + rewrite (video_line_none _ Ev). apply IH. reflexivity.
Qed.

(** ** Tags and fields *)

Lemma all_str_not_strings (l : list json) :
  forallb is_string l = false -> all_str l = Err TypeError.
Proof.
  induction l as [|v l IH]; cbn [forallb all_str]; intros H; [discriminate|].
  destruct v; try reflexivity. cbn [is_string andb] in H.
  rewrite (IH H). reflexivity.
Qed.

(** X6. The tags are serialized when they are nothing ([None], an empty list
    or string, zero, [False]), which gives the sentinel, a list of strings,
    which gives the strings with a bar between them, a string or a dict;
    any other value, a list with a number or a [None] in it among them,
    raises [TypeError]. *)
Theorem get_tags_succeeds_or_type_error (tags_list : json) :
  (py_truthy tags_list = false ->
   get_tags tags_list = Ok (prepare_feature (JStr "[none]"))) /\
  (forall ss : list string,
     tags_list = JArr (map JStr ss) -> ss <> [] ->
     get_tags tags_list = Ok (prepare_feature (JStr (join "|" ss)))) /\
  (joinable tags_list = true -> exists tags, get_tags tags_list = Ok tags) /\
  (joinable tags_list = false -> get_tags tags_list = Err TypeError).
Proof.
  split; [|split; [|split]].
  - intros T. unfold get_tags. rewrite T. reflexivity.
  - intros ss -> Hss. unfold get_tags, py_join.
    destruct ss as [|x ss]; [contradiction|].
    cbn [map py_truthy negb py_iter res_bind].
    change (JStr x :: map JStr ss) with (map JStr (x :: ss)).
    rewrite all_str_map_JStr. reflexivity.
  - apply get_tags_joinable.
  - unfold joinable, get_tags, py_join. intros H.
    apply orb_false_iff in H. destruct H as [T H].
    apply negb_false_iff in T. rewrite T. cbn [negb].
    destruct tags_list; try discriminate; try reflexivity.
    cbn [py_iter res_bind]. rewrite (all_str_not_strings _ H). reflexivity.
Qed.

(** X7. In the row of an item, the view count is the sanitized [viewCount],
    or [0] without one; with a [likeCount], ratings are not disabled, the
    likes are the sanitized [likeCount] and the dislikes the sanitized
    [dislikeCount], or [0] without one; with a [commentCount], comments are
    not disabled and the comment count is its sanitized value. *)
Theorem counts_of_row (video : json) (line : list string) :
  video_line video = Ok (Some line) ->
  let statistics := nav video "statistics" JNull in
  field "view_count" line
    = Some (prepare_feature (nav statistics "viewCount" (JInt 0))) /\
  (has_key "likeCount" statistics = true ->
   field "ratings_disabled" line = Some (prepare_feature (JBool false)) /\
   field "likes" line
     = Some (prepare_feature (nav statistics "likeCount" JNull)) /\
   field "dislikes" line
     = Some (prepare_feature (nav statistics "dislikeCount" (JInt 0)))) /\
  (has_key "commentCount" statistics = true ->
   field "comments_disabled" line = Some (prepare_feature (JBool false)) /\
   field "comment_count" line
     = Some (prepare_feature (nav statistics "commentCount" JNull))).
Proof.
  intros H statistics. apply video_line_emitted in H. destruct H as (-> & _).
  rewrite !field_expected_line.
  change (nth_error (row_record video) (index_of "view_count" HEADER))
    with (Some ("view_count", nav statistics "viewCount" (JInt 0))).
  change (nth_error (row_record video) (index_of "ratings_disabled" HEADER))
    with (Some ("ratings_disabled",
                JBool (negb (has_key "likeCount" statistics)))).
  change (nth_error (row_record video) (index_of "likes" HEADER))
    with (Some ("likes",
                if negb (has_key "likeCount" statistics) then JInt 0
                else nav statistics "likeCount" JNull)).
  change (nth_error (row_record video) (index_of "dislikes" HEADER))
    with (Some ("dislikes",
                if negb (has_key "likeCount" statistics) then JInt 0
                else nav statistics "dislikeCount" (JInt 0))).
  change (nth_error (row_record video) (index_of "comments_disabled" HEADER))
    with (Some ("comments_disabled",
                JBool (negb (has_key "commentCount" statistics)))).
  change (nth_error (row_record video) (index_of "comment_count" HEADER))
    with (Some ("comment_count",
                if negb (has_key "commentCount" statistics) then JInt 0
                else nav statistics "commentCount" JNull)).
  cbn [snd]. split; [reflexivity|].
  split; intros ->; repeat split.
Qed.

Lemma nav_absent (v : json) (k : string) (default : json) :
  has_key k v = false -> nav v k default = default.
Proof.
  destruct v; try reflexivity. cbn [has_key nav]. unfold dict_mem, dict_get.
  destruct (dict_lookup k o); [discriminate | reflexivity].
Qed.

(** X8. In the row of an item, a text that the item does not give is an
    empty field: each of the five snippet features and the description
    that the snippet lacks, the duration of an item without
    [contentDetails], the thumbnail link of a snippet without
    [thumbnails]; and the trending date is the date of the run. *)
Theorem missing_texts_are_empty_fields (video : json) (line : list string) :
  video_line video = Ok (Some line) ->
  let snippet := nav video "snippet" JNull in
  (forall name : string,
     In name ("description" :: SNIPPET_FEATURES) ->
     has_key name snippet = false ->
     field name line = Some (quoted "")) /\
  (has_key "contentDetails" video = false ->
   field "duration" line = Some (quoted "")) /\
  (has_key "thumbnails" snippet = false ->
   field "thumbnail_link" line = Some (quoted "")) /\
  field "trending_date" line = Some (prepare_feature (JStr today)).
Proof.
  intros H snippet. apply video_line_emitted in H. destruct H as (-> & _).
  split; [|split; [|split]].
  - intros name Hin Habs. rewrite field_expected_line.
    cbn [In SNIPPET_FEATURES] in Hin.
    repeat (destruct Hin as [<-|Hin];
            [ match goal with
              | |- context [index_of ?n HEADER] =>
                  change (nth_error (row_record video) (index_of n HEADER))
                    with (Some (n, nav snippet n (JStr "")))
              end;
              cbn [snd]; rewrite (nav_absent _ _ _ Habs); reflexivity | ]).
    contradiction.
  - intros Habs. rewrite field_expected_line.
    change (nth_error (row_record video) (index_of "duration" HEADER))
      with (Some ("duration",
                  nav (nav video "contentDetails" (JObj [])) "duration" (JStr ""))).
    cbn [snd]. rewrite (nav_absent _ _ _ Habs). reflexivity.
  - intros Habs. rewrite field_expected_line.
    change (nth_error (row_record video) (index_of "thumbnail_link" HEADER))
      with (Some ("thumbnail_link",
                  nav (nav (nav snippet "thumbnails" (JObj [])) "default" (JObj []))
                      "url" (JStr ""))).
    cbn [snd]. rewrite (nav_absent _ _ _ Habs). reflexivity.
  - rewrite field_expected_line. reflexivity.
Qed.

(** ** Pagination *)

Lemma get_pages_after_fetched (fuel : nat) (cc key : string)
    (cat : option string) (w : world) (pages : list dict) (rows : list string)
    (n' : nat) (token' : string) :
  fetched cc key cat (calls w) "&" pages rows n' token' ->
  get_pages (S (List.length pages) + fuel) cc key cat w =
  get_pages_loop (S fuel) cc key cat (Some token') rows (mkWorld n' (files w)).
Proof.
  intros Hf. unfold get_pages. destruct w as [n fs]. cbn [calls files] in *.
  replace (S (List.length pages) + fuel) with (List.length pages + S fuel)
    by lia.
  rewrite (get_pages_loop_fetched _ _ _ _ _ _ _ _ _ Hf). reflexivity.
Qed.

(** X9. When the world serves some pages with a token each and then a page
    without one, the driver returns the rows of all of them in the order
    of the pages, and has sent one request for each page; with a first
    page without a token that is one request. *)
Theorem get_pages_until_no_token (fuel : nat) (cc key : string)
    (cat : option string) (w : world) (pages : list dict) (rows : list string)
    (n' : nat) (token' : string) (last : dict) (rows' : list string) :
  fetched cc key cat (calls w) "&" pages rows n' token' ->
  api n' (request_url token' cc key cat) = Response 200 (JObj last) ->
  page_next last = JNull ->
  get_videos (page_items last) = Ok rows' ->
  get_pages (S (List.length pages) + fuel) cc key cat w =
  (Ret (rows ++ rows')%list, mkWorld (S n') (files w)).
Proof.
  intros Hf Hapi Hnext Hrows.
  rewrite (get_pages_after_fetched _ _ _ _ _ _ _ _ _ Hf).
  rewrite (get_pages_loop_page _ _ _ _ _ _ _ last rows') by assumption.
  rewrite Hnext. cbn [page_token_param is_none calls files].
  apply get_pages_loop_done.
Qed.

(** X10. An answer with the status 200 whose body is [None] counts as a
    failed fetch: the driver returns the rows it has.  A body that is
    neither [None] nor a dict, and a page whose [items] is [None], make the
    driver raise, and the rows it has are lost. *)
Theorem get_pages_odd_bodies (fuel : nat) (cc key : string)
    (cat : option string) (w : world) (pages : list dict) (rows : list string)
    (n' : nat) (token' : string) (body : json) :
  fetched cc key cat (calls w) "&" pages rows n' token' ->
  api n' (request_url token' cc key cat) = Response 200 body ->
  let budget := S (List.length pages) + fuel in
  let w1 := mkWorld (S n') (files w) in
  (body = JNull -> get_pages budget cc key cat w = (Ret rows, w1)) /\
  (is_dict body = false -> body <> JNull ->
   get_pages budget cc key cat w = (Raise AttributeError, w1)) /\
  (forall page : dict,
     body = JObj page -> page_items page = JNull ->
     get_pages budget cc key cat w = (Raise TypeError, w1)).
Proof.
  intros Hf Hapi budget w1. unfold budget.
  rewrite (get_pages_after_fetched _ _ _ _ _ _ _ _ _ Hf).
  cbn [get_pages_loop]. unfold bind.
  rewrite (api_request_200 token' cc key cat body (mkWorld n' (files w)) Hapi).
  cbn [calls files].
  split; [|split].
  - intros ->. reflexivity.
  - intros Hd Hn. destruct body; try discriminate; try contradiction;
      reflexivity.
  - intros page -> Hitems. cbn [is_none]. unfold lift.
    cbn [py_get]. fold (page_items page). rewrite Hitems. reflexivity.
Qed.

(** X11. The driver has no bound of its own on the number of pages: against
    a world where every answer is a page with a token, it is still asking
    when any budget of requests is used up. *)
Theorem get_pages_never_ends_on_endless_tokens (cc key : string)
    (cat : option string) :
  (forall (n : nat) (url : string),
     exists (page : dict) (rows : list string),
       api n url = Response 200 (JObj page) /\
       is_none (page_next page) = false /\
       get_videos (page_items page) = Ok rows) ->
  forall (fuel : nat) (w : world),
    get_pages fuel cc key cat w =
    (OutOfFuel, mkWorld (fuel + calls w) (files w)).
Proof.
  intros Hall fuel w. unfold get_pages.
  generalize "&" as token, (@nil string) as acc. revert w.
  induction fuel as [|fuel IH]; intros w token acc.
  - destruct w. reflexivity.
  - destruct (Hall (calls w) (request_url token cc key cat))
      as (page & rows & Hapi & Hnext & Hrows).
    rewrite (get_pages_loop_page _ _ _ _ _ _ _ page rows) by assumption.
    unfold page_token_param. rewrite Hnext. rewrite IH.
    cbn [calls files]. rewrite Nat.add_succ_r. reflexivity.
Qed.

(** X12. A 403 after any number of served pages ends the run with the exit
    status one: the rows of the pages served are dropped, no file is
    written for the country or the category, no request follows. *)
Theorem forbidden_ends_the_run (fuel : nat) (cc key : string)
    (cat : option string) (w : world) (pages : list dict) (rows : list string)
    (n' : nat) (token' : string) (body : json) :
  fetched cc key cat (calls w) "&" pages rows n' token' ->
  api n' (request_url token' cc key cat) = Response 403 body ->
  let budget := S (List.length pages) + fuel in
  let w1 := mkWorld (S n') (files w) in
  get_pages budget cc key cat w = (Exit 1, w1) /\
  (cat = None ->
   forall (rest : list string) (out : string),
     get_data budget (cc :: rest) key out false w = (Exit 1, w1)) /\
  (forall (cid cname : string) (rest : list (string * string)) (out : string),
     cat = Some cid ->
     collect_categories budget cc key out ((cid, cname) :: rest) w
       = (Exit 1, w1)).
Proof.
  intros Hf Hapi budget w1.
  assert (Hgp : get_pages budget cc key cat w = (Exit 1, w1)).
  { unfold budget. rewrite (get_pages_after_fetched _ _ _ _ _ _ _ _ _ Hf).
    destruct (get_pages_loop_fatal fuel cc key cat token' rows
                (mkWorld n' (files w)) 403 body Hapi) as [_ H403].
    apply H403. reflexivity. }
  split; [exact Hgp|]. split.
  - intros -> rest out. cbn [get_data]. unfold collect_country.
    unfold bind at 1 2. rewrite Hgp. reflexivity.
  - intros cid cname rest out ->. cbn [collect_categories].
    unfold collect_category. unfold bind at 1 2. rewrite Hgp. reflexivity.
Qed.

(** ** Orchestrator and writer *)

Lemma get_pages_dead (fuel : nat) (cc key : string) (cat : option string)
    (w : world) :
  (forall (n : nat) (url : string), is_local_failure (api n url) = true) ->
  get_pages (S fuel) cc key cat w = (Ret [], mkWorld (S (calls w)) (files w)).
Proof.
  intros Hdead. unfold get_pages. apply get_pages_loop_failure. apply Hdead.
Qed.

Lemma collect_categories_dead (fuel : nat) (cc key out : string)
    (cats : list (string * string)) (w : world) :
  (forall (n : nat) (url : string), is_local_failure (api n url) = true) ->
  collect_categories (S fuel) cc key out cats w =
  (Ret tt, mkWorld (List.length cats + calls w) (files w)).
Proof.
  intros Hdead. revert w. induction cats as [|[cid cname] cats IH]; intros w.
  - destruct w. reflexivity.
  - cbn [collect_categories]. unfold collect_category, bind.
    rewrite (get_pages_dead _ _ _ _ _ Hdead). cbn [List.length Nat.ltb Nat.leb ret].
    rewrite IH. cbn [calls files List.length].
    rewrite Nat.add_succ_r. reflexivity.
Qed.

(** X13. Against a network where every request fails locally, the run
    comes to its end without raising: with categories it sends thirteen
    requests for each country and writes nothing; without, it sends one
    request for each country and writes for each, in turn, a file that
    holds the header line alone. *)
Theorem dead_network_run (fuel : nat) (countries : list string)
    (key out : string) (w : world) :
  (forall (n : nat) (url : string), is_local_failure (api n url) = true) ->
  get_data (S fuel) countries key out true w =
    (Ret tt, mkWorld (13 * List.length countries + calls w) (files w)) /\
  ((forall c, In c countries -> disk_ok (file_name c out None) = true) ->
   get_data (S fuel) countries key out false w =
     (Ret tt,
      mkWorld (List.length countries + calls w)
        (rev (map (fun c => (file_name c out None, file_text [header_row]))
                  countries) ++ files w)%list)).
Proof.
  intros Hdead. split.
  - revert w. induction countries as [|c cs IH]; intros w.
    + destruct w. reflexivity.
    + cbn [get_data]. unfold bind, collect_country.
      rewrite (collect_categories_dead _ _ _ _ _ _ Hdead).
      rewrite IH. cbn [calls files List.length CATEGORIES]. f_equal. f_equal. lia.
  - revert w. induction countries as [|c cs IH]; intros w Hdisk.
    + destruct w. reflexivity.
    + cbn [get_data]. unfold bind at 1. unfold collect_country, bind at 1.
      rewrite (get_pages_dead _ _ _ _ _ Hdead).
      unfold write_to_file at 1. rewrite (Hdisk c (or_introl eq_refl)).
      rewrite IH by (intros c' Hc'; apply Hdisk; right; exact Hc').
      cbn [calls files List.length map rev].
      rewrite <- app_assoc. cbn [app]. rewrite Nat.add_succ_r. reflexivity.
Qed.















Lemma occurs_replaced (old : ascii) (new s : string) :
  occurs old new = false -> occurs old (str_replace old new s) = false.
Proof.
  intros Hnew. induction s as [|c s IH]; cbn [str_replace occurs]; [reflexivity|].
  destruct (Ascii.eqb c old) eqn:E.
  - rewrite occurs_app, Hnew, IH. reflexivity.
  - cbn [occurs]. rewrite E, IH. reflexivity.
Qed.

Lemma occurs_replace_other (c old : ascii) (new s : string) :
  occurs c new = false -> occurs c s = false ->
  occurs c (str_replace old new s) = false.
Proof.
  intros Hnew. induction s as [|x s IH]; cbn [str_replace occurs]; intros H;
    [reflexivity|].
  apply orb_false_iff in H. destruct H as [Hx Hs].
  destruct (Ascii.eqb x old).
  - rewrite occurs_app, Hnew, (IH Hs). reflexivity.
  - cbn [occurs]. rewrite Hx, (IH Hs). reflexivity.
Qed.

Lemma file_name_eq (cc out : string) (cname : option string) :
  file_name cc out cname =
  out ++ "/" ++ today ++ "_" ++ cc ++ category_suffix cname ++ "_videos.csv".
Proof. reflexivity. Qed.

(** X16. The name of a file is the output directory, a slash, the date, the
    country code, the part that comes from the category and [_videos.csv];
    whatever the name of the category, that part holds no space and no
    [&]. *)
Theorem file_name_category_part (cc out : string) (cname : option string) :
  file_name cc out cname =
    out ++ "/" ++ today ++ "_" ++ cc ++ category_suffix cname ++ "_videos.csv" /\
  occurs " " (category_suffix cname) = false /\
  occurs "&" (category_suffix cname) = false.
Proof.
  split; [reflexivity|].
  destruct cname as [name|]; [|split; reflexivity].
  cbn [category_suffix]. destruct (String.eqb name ""); [split; reflexivity|].
  split; cbn [append occurs].
  - change (Ascii.eqb "_" " ") with false. cbn [orb].
    apply occurs_replace_other; [reflexivity|].
    apply occurs_replaced. reflexivity.
  - change (Ascii.eqb "_" "&") with false. cbn [orb].
    apply occurs_replaced. reflexivity.
Qed.

Lemma str_app_inj_l (a b c : string) : a ++ b = a ++ c -> b = c.
Proof.
  induction a as [|x a IH]; cbn [append]; intros H; [exact H|].
  injection H as H. apply IH. exact H.
Qed.

Lemma file_name_inj (cc out : string) (n1 n2 : option string) :
  file_name cc out n1 = file_name cc out n2 ->
  category_suffix n1 ++ "_videos.csv" = category_suffix n2 ++ "_videos.csv".
Proof.
  rewrite !file_name_eq. intros H.
  apply str_app_inj_l in H. cbn [append] in H. injection H as H.
  apply str_app_inj_l in H. cbn [append] in H. injection H as H.
  apply str_app_inj_l in H. exact H.
Qed.

Lemma NoDup_map_in {A B : Type} (f : A -> B) (l : list A) :
  (forall x y, In x l -> In y l -> f x = f y -> x = y) ->
  NoDup l -> NoDup (map f l).
Proof.
  intros Hinj. induction 1 as [|x l Hx Hl IH]; cbn [map]; constructor.
  - intros Hin. apply in_map_iff in Hin. destruct Hin as (y & E & Hy).
    apply Hx. rewrite (Hinj x y); [exact Hy | left; reflexivity
                                    | right; exact Hy | symmetry; exact E].
  - apply IH. intros a b Ha Hb. apply Hinj; right; assumption.
Qed.

(** X17. In a run for one country, the thirteen categories and the run
    without categories write to fourteen different files. *)
Theorem category_files_are_distinct (cc out : string) :
  NoDup (map (file_name cc out)
             (None :: map (fun category => Some (snd category)) CATEGORIES)).
Proof.
  apply NoDup_map_in.
  - intros n1 n2 H1 H2 E. apply file_name_inj in E.
    cbn [CATEGORIES map snd In] in H1, H2.
    repeat (destruct H1 as [<-|H1]); try contradiction;
      repeat (destruct H2 as [<-|H2]); try contradiction;
      first [reflexivity | discriminate E].
  - cbn [CATEGORIES map snd].
    repeat (constructor; [cbn [In]; intuition discriminate|]). constructor.
Qed.

(** ** Setup *)

Lemma single_line_readline (text : string) : single_line (readline text) = true.
Proof.
  induction text as [|c text IH]; cbn [readline]; [reflexivity|].
  destruct (Ascii.eqb c newline) eqn:E; cbn [single_line]; rewrite E;
    [reflexivity | exact IH].
Qed.

Lemma single_line_file_lines (text : string) :
  Forall (fun x => single_line x = true) (file_lines text).
Proof.
  induction text as [|c text IH]; cbn [file_lines]; [constructor|].
  destruct (Ascii.eqb c newline) eqn:E.
  - constructor; [|exact IH]. cbn [single_line]. rewrite E. reflexivity.
  - destruct (file_lines text) as [|line lines].
    + constructor; [|constructor]. cbn [single_line]. rewrite E. reflexivity.
    + inversion IH as [|? ? Hline Hlines]; subst.
      constructor; [|exact Hlines]. cbn [single_line]. rewrite E. exact Hline.
Qed.

Lemma single_line_lstrip (s : string) :
  single_line s = true -> single_line (lstrip s) = true.
Proof.
  induction s as [|c s IH]; cbn [lstrip]; intros H; [reflexivity|].
  destruct (is_space c); [|exact H].
  cbn [single_line] in H. destruct (Ascii.eqb c newline).
  - apply String.eqb_eq in H. subst s. reflexivity.
  - apply IH. exact H.
Qed.

Lemma rstrip_cons (c : ascii) (s : string) :
  rstrip (String c s) =
  match rstrip s with
  | EmptyString => if is_space c then EmptyString else String c EmptyString
  | r => String c r
  end.
Proof. reflexivity. Qed.

Lemma rstrip_single_line (s : string) :
  single_line s = true -> occurs newline (rstrip s) = false.
Proof.
  induction s as [|c s IH]; intros H; [reflexivity|].
  cbn [single_line] in H. rewrite rstrip_cons.
  destruct (Ascii.eqb c newline) eqn:E.
  - apply String.eqb_eq in H. subst s. apply Ascii.eqb_eq in E. subst c.
    reflexivity.
  - specialize (IH H). destruct (rstrip s) as [|x r].
    + destruct (is_space c); [reflexivity|]. cbn [occurs]. rewrite E. reflexivity.
    + cbn [occurs] in *. rewrite E. exact IH.
Qed.

Lemma rstrip_idem (s : string) : rstrip (rstrip s) = rstrip s.
Proof.
  induction s as [|c s IH]; [reflexivity|].
  rewrite rstrip_cons. destruct (rstrip s) as [|x r] eqn:E.
  - destruct (is_space c) eqn:Ec; [reflexivity|].
    rewrite rstrip_cons. cbn [rstrip]. rewrite Ec. reflexivity.
  - rewrite rstrip_cons, IH. reflexivity.
Qed.

Lemma rstrip_empty_lstrip (s : string) : rstrip s = "" -> lstrip s = "".
Proof.
  induction s as [|c s IH]; [reflexivity|].
  rewrite rstrip_cons. cbn [lstrip].
  destruct (rstrip s) as [|x r]; [|discriminate].
  destruct (is_space c); [|discriminate]. intros _. apply IH. reflexivity.
Qed.

Lemma lstrip_head (s : string) :
  lstrip s = "" \/ exists c r, lstrip s = String c r /\ is_space c = false.
Proof.
  induction s as [|c s IH]; cbn [lstrip]; [left; reflexivity|].
  destruct (is_space c) eqn:E; [exact IH|].
  right. exists c, s. split; [reflexivity | exact E].
Qed.

Lemma strip_idem (s : string) : strip (strip s) = strip s.
Proof.
  unfold strip. destruct (lstrip_head s) as [-> | (c & r & -> & Hc)];
    [reflexivity|].
  assert (E : lstrip (rstrip (String c r)) = rstrip (String c r)).
  { rewrite rstrip_cons. destruct (rstrip r); rewrite ?Hc; cbn [lstrip];
      rewrite Hc; reflexivity. }
  rewrite E. apply rstrip_idem.
Qed.

Lemma strip_single_line (s : string) :
  single_line s = true -> occurs newline (strip s) = false.
Proof.
  intros H. unfold strip. apply rstrip_single_line, single_line_lstrip, H.
Qed.

Lemma country_codes_ok (lines : list string) :
  Forall (fun x => single_line x = true) lines ->
  Forall (fun code =>
            code <> "" /\ rstrip code = code /\ occurs newline code = false)
         (map rstrip
              (filter (fun x => negb (String.eqb (strip x) "")) lines)).
Proof.
  induction 1 as [|x lines Hx _ IH]; cbn [filter map]; [constructor|].
  destruct (String.eqb (strip x) "") eqn:E; cbn [negb map]; [exact IH|].
  constructor; [|exact IH]. repeat split.
  - intros R. apply rstrip_empty_lstrip in R.
    unfold strip in E. rewrite R in E. discriminate E.
  - apply rstrip_idem.
  - apply rstrip_single_line. exact Hx.
Qed.

(** X18. When [setup] returns, it has touched nothing, the key is not
    empty, has no white space at either end and no newline, there is at
    least one country code, and every country code is not empty, has no
    white space at its end and no newline. *)
Theorem setup_returns_clean_values (api_path code_path : string) (w w' : world)
    (api_key : string) (country_codes : list string) :
  setup api_path code_path w = (Ret (api_key, country_codes), w') ->
  w' = w /\
  api_key <> "" /\ strip api_key = api_key /\ occurs newline api_key = false /\
  country_codes <> [] /\
  Forall (fun code =>
            code <> "" /\ rstrip code = code /\ occurs newline code = false)
         country_codes.
Proof.
  unfold setup. intros H.
  destruct (read_file api_path) as [text|]; [|discriminate H].
  destruct (String.eqb (strip (readline text)) "") eqn:Ek; [discriminate H|].
  destruct (read_file code_path) as [codes|]; [|discriminate H].
  destruct (map rstrip _) as [|code rest] eqn:Ec; [discriminate H|].
  cbn [ret] in H. injection H as <- <- <-.
  split; [reflexivity|]. split.
  { intros E. rewrite E in Ek. discriminate Ek. }
  split; [apply strip_idem|]. split.
  { apply strip_single_line, single_line_readline. }
  split; [discriminate|].
  rewrite <- Ec. apply country_codes_ok, single_line_file_lines.
Qed.

Lemma no_country_code (lines : list string) :
  Forall (fun x => strip x = "") lines ->
  map rstrip (filter (fun x => negb (String.eqb (strip x) "")) lines) = [].
Proof.
  induction 1 as [|x lines Hx _ IH]; [reflexivity|].
  cbn [filter]. rewrite Hx. exact IH.
Qed.

(** X19. When the key file cannot be read or its first line is blank, the
    key standing on a later line among the cases, or when the file of
    country codes cannot be read or has nothing but blank lines, the
    script stops with the exit status one, before any request is sent and
    any file written. *)
Theorem setup_failure_stops_the_script (fuel : nat)
    (key_path country_code_path output_dir : string) (by_category : bool)
    (w : world) :
  read_file key_path = None \/
  (exists text, read_file key_path = Some text /\ strip (readline text) = "") \/
  read_file country_code_path = None \/
  (exists text, read_file country_code_path = Some text /\
                Forall (fun x => strip x = "") (file_lines text)) ->
  main fuel key_path country_code_path output_dir by_category w = (Exit 1, w).
Proof.
  intros H. unfold main, bind.
  assert (E : setup key_path country_code_path w = (Exit 1, w)).
  { unfold setup.
    destruct (read_file key_path) as [text|] eqn:Rk; [|reflexivity].
    destruct (String.eqb (strip (readline text)) "") eqn:Ek; [reflexivity|].
    destruct H as [H | [(t & Ht & Hb) | [H | (t & Ht & Hb)]]].
    - discriminate H.
    - injection Ht as <-. rewrite Hb in Ek. discriminate Ek.
    - rewrite H. reflexivity.
    - rewrite Ht, (no_country_code _ Hb). reflexivity. }
  rewrite E. reflexivity.
Qed.

End Scraper.

(** * The properties on the sample inputs *)

(** C1, as first stated, fails: an item whose only entry is [statistics]
    has a statistics sub-structure and gives no row, since [video['id']]
    raises. *)
Lemma statistics_alone_gives_no_row :
  is_dict item_only_statistics = true /\
  has_key "statistics" item_only_statistics = true /\
  get_videos sample_today sample_repr (JArr [item_only_statistics])
    = Err (KeyError "id") /\
  ~ (exists row,
       get_videos sample_today sample_repr (JArr [item_only_statistics])
         = Ok [row]).
Proof.
  repeat split. intros [row H]. discriminate H.
Qed.

Lemma get_videos_row_or_skip_or_raise_witness :
  is_dict sample_item = true /\
  has_key "statistics" sample_item = true /\
  well_shaped sample_item = true /\
  get_videos sample_today sample_repr (JArr [sample_item])
    = Ok [join "," (expected_line sample_today sample_repr sample_item)] /\
  get_videos sample_today sample_repr (JArr [item_removed]) = Ok [] /\
  exists e,
    get_videos sample_today sample_repr (JArr [item_only_statistics]) = Err e.
Proof.
  pose proof (get_videos_row_or_skip_or_raise sample_today sample_repr
                sample_item eq_refl) as (_ & Hrow & _).
  pose proof (get_videos_row_or_skip_or_raise sample_today sample_repr
                item_removed eq_refl) as (Hskip & _ & _).
  pose proof (get_videos_row_or_skip_or_raise sample_today sample_repr
                item_only_statistics eq_refl) as (_ & _ & Hraise).
  split; [reflexivity|]. split; [reflexivity|]. split; [reflexivity|].
  split; [exact (proj1 (Hrow eq_refl eq_refl))|].
  split; [exact (Hskip eq_refl) | exact (Hraise eq_refl eq_refl)].
Defined.

Lemma ratings_disabled_iff_no_like_count_witness :
  video_line sample_today sample_repr sample_item
    = Ok (Some (expected_line sample_today sample_repr sample_item)) /\
  field "ratings_disabled" (expected_line sample_today sample_repr sample_item)
    = Some (prepare_feature sample_repr (JBool true)) /\
  field "likes" (expected_line sample_today sample_repr sample_item)
    = Some (prepare_feature sample_repr (JInt 0)) /\
  field "dislikes" (expected_line sample_today sample_repr sample_item)
    = Some (prepare_feature sample_repr (JInt 0)).
Proof.
  pose proof (ratings_disabled_iff_no_like_count sample_today sample_repr
                sample_item _ eq_refl) as [Hiff Hzero].
  split; [reflexivity|]. split.
  - apply (proj2 Hiff). reflexivity.
  - apply Hzero. apply (proj2 Hiff). reflexivity.
Defined.

Lemma comments_disabled_iff_no_comment_count_witness :
  video_line sample_today sample_repr sample_item_untagged
    = Ok (Some (expected_line sample_today sample_repr sample_item_untagged)) /\
  field "comments_disabled"
        (expected_line sample_today sample_repr sample_item_untagged)
    = Some (prepare_feature sample_repr (JBool true)) /\
  field "comment_count"
        (expected_line sample_today sample_repr sample_item_untagged)
    = Some (prepare_feature sample_repr (JInt 0)).
Proof.
  pose proof (comments_disabled_iff_no_comment_count sample_today sample_repr
                sample_item_untagged _ eq_refl) as [Hiff Hzero].
  split; [reflexivity|]. split.
  - apply (proj2 Hiff). reflexivity.
  - apply Hzero. apply (proj2 Hiff). reflexivity.
Defined.

Lemma tags_field_of_row_witness :
  field "tags" (expected_line sample_today sample_repr sample_item_untagged)
    = Some (prepare_feature sample_repr (JStr "[none]")) /\
  field "tags" (expected_line sample_today sample_repr sample_item)
    = Some (prepare_feature sample_repr (JStr "a|b")).
Proof.
  split.
  - apply (proj1 (tags_field_of_row sample_today sample_repr
                    sample_item_untagged _ eq_refl)).
    reflexivity.
  - apply (proj2 (tags_field_of_row sample_today sample_repr
                    sample_item _ eq_refl) "a" "b").
    reflexivity.
Defined.

Lemma prepare_feature_idempotent_witness :
  prepare_feature sample_repr (JStr (prepare_feature sample_repr (JInt 12)))
    = prepare_feature sample_repr (JInt 12) /\
  field "tags" (expected_line sample_today sample_repr sample_item)
    = Some (tags_text sample_repr (JArr [JStr "a"; JStr "b"])).
Proof.
  destruct (prepare_feature_idempotent sample_today sample_repr) as [Hi Ht].
  split.
  - apply Hi.
  - apply (Ht sample_item _ _ eq_refl eq_refl).
Defined.

Lemma get_pages_three_pages_witness :
  get_pages sample_today sample_repr api_three_pages 3 "US" "KEY" None
    (mkWorld 0 []) =
  (Ret (rows_of (get_videos sample_today sample_repr (page_items page1)) ++
        rows_of (get_videos sample_today sample_repr (page_items page2)) ++
        rows_of (get_videos sample_today sample_repr (page_items page3)))%list,
   mkWorld 3 []).
Proof.
  apply (get_pages_three_pages sample_today sample_repr api_three_pages 0
           "US" "KEY" None (mkWorld 0 []) page1 page2 page3 "T2" "T3");
    reflexivity.
Defined.

Lemma get_pages_stops_at_local_failure_witness :
  get_pages sample_today sample_repr (api_second_page_status 500) 2
    "US" "KEY" None (mkWorld 0 []) =
  (Ret (rows_of (get_videos sample_today sample_repr (page_items page1)) ++ [])%list,
   mkWorld 2 []) /\
  get_data sample_today sample_repr (api_second_page_status 500) disk_yes 2
    ["US"; "GB"] "KEY" "output" false (mkWorld 0 []) =
  bind (write_to_file sample_today disk_yes "US"
          (header_row ::
           rows_of (get_videos sample_today sample_repr (page_items page1)) ++ [])%list
          "output" None None)
       (fun _ => get_data sample_today sample_repr (api_second_page_status 500)
                   disk_yes 2 ["GB"] "KEY" "output" false)
       (mkWorld 2 []).
Proof.
  assert (F : fetched sample_today sample_repr (api_second_page_status 500)
                "US" "KEY" None 0 "&" [page1]
                (rows_of (get_videos sample_today sample_repr (page_items page1)) ++ [])
                1 "pageToken=T2&").
  { apply (fetched_page sample_today sample_repr (api_second_page_status 500)
             "US" "KEY" None 0 "&" page1 [] _ [] "pageToken=T2&" 1 "pageToken=T2&");
      [reflexivity | reflexivity | reflexivity | apply fetched_none]. }
  destruct (get_pages_stops_at_local_failure sample_today sample_repr
              (api_second_page_status 500) disk_yes 0 "US" "KEY" None
              (mkWorld 0 []) [page1] _ 1 "pageToken=T2&" F eq_refl)
    as (Hrows & Hnext & _).
  split; [exact Hrows | exact (Hnext eq_refl ["GB"] "output")].
Defined.

Lemma empty_pagination_file_policy_witness :
  files (snd (collect_category sample_today sample_repr api_no_video disk_yes 1
                "US" "KEY" "output" ("10", "Music") (mkWorld 0 []))) = [] /\
  files (snd (collect_country sample_today sample_repr api_no_video disk_yes 1
                "KEY" "output" false "US" (mkWorld 0 []))) =
  [(file_name sample_today "US" "output" None,
    header_row ++ String newline EmptyString)].
Proof.
  destruct (empty_pagination_file_policy sample_today sample_repr api_no_video
              disk_yes 1 "US" "KEY" "output" (mkWorld 0 []) (mkWorld 1 []))
    as [Hcat Hall].
  split.
  - destruct (Hcat "10" "Music" eq_refl) as [E _]. rewrite E. reflexivity.
  - destruct (Hall eq_refl) as (_ & _ & Hfile). exact (Hfile eq_refl).
Defined.

(** C7, on the code.  Every request of a run over [US] and [GB], with
    categories, is answered with the status 429: the run stops at the
    first request, without a file, but its exit status is zero,
    [sys.exit()] being called without a status; answered with 403, the same
    run stops with the exit status one. *)
Theorem rate_limit_exit_status_is_zero :
  get_data sample_today sample_repr (api_always_status 429) disk_yes 5
    ["US"; "GB"] "KEY" "output" true (mkWorld 0 []) = (Exit 0, mkWorld 1 []) /\
  exit_status
    (fst (get_data sample_today sample_repr (api_always_status 429)
            disk_yes 5 ["US"; "GB"] "KEY" "output" true (mkWorld 0 [])))
    = Some 0%Z /\
  exit_status
    (fst (get_data sample_today sample_repr (api_always_status 403)
            disk_yes 5 ["US"; "GB"] "KEY" "output" true (mkWorld 0 [])))
    = Some 1%Z.
Proof.
  repeat split; vm_compute; reflexivity.
Qed.

(** * The further properties on the sample inputs *)

Lemma prepare_feature_keeps_the_rest_witness :
  prepare_feature sample_repr (JStr "a, b") = quoted "a, b".
Proof.
  apply (proj2 (prepare_feature_keeps_the_rest sample_repr (JStr "a, b")));
    reflexivity.
Defined.

Lemma row_fields_read_back_witness :
  split_row (join "," (expected_line sample_today sample_repr sample_item))
    = expected_line sample_today sample_repr sample_item.
Proof.
  exact (proj1 (row_fields_read_back sample_today sample_repr sample_item
                  _ eq_refl)).
Defined.

Lemma get_videos_rows_are_table_rows_witness :
  Forall table_row
    (rows_of (get_videos sample_today sample_repr (page_items page1))).
Proof.
  exact (proj1 (get_videos_rows_are_table_rows sample_today sample_repr
                  (page_items page1) _ eq_refl)).
Defined.

Lemma get_videos_drops_items_without_statistics_witness :
  List.length
    (rows_of (get_videos sample_today sample_repr
                (JArr [sample_item; item_removed; sample_item_untagged]))) = 2.
Proof.
  exact (get_videos_drops_items_without_statistics sample_today sample_repr
           [sample_item; item_removed; sample_item_untagged] _ eq_refl).
Defined.

Lemma get_tags_succeeds_or_type_error_witness :
  get_tags sample_repr JNull = Ok (prepare_feature sample_repr (JStr "[none]")) /\
  get_tags sample_repr (JArr [JStr "a"; JInt 3]) = Err TypeError.
Proof.
  split.
  - apply (proj1 (get_tags_succeeds_or_type_error sample_repr JNull)).
    reflexivity.
  - apply (proj2 (proj2 (proj2 (get_tags_succeeds_or_type_error sample_repr
                                   (JArr [JStr "a"; JInt 3]))))).
    reflexivity.
Defined.

Lemma counts_of_row_witness :
  field "view_count" (expected_line sample_today sample_repr sample_item_untagged)
    = Some (prepare_feature sample_repr (JStr "7")) /\
  field "ratings_disabled"
        (expected_line sample_today sample_repr sample_item_untagged)
    = Some (prepare_feature sample_repr (JBool false)) /\
  field "likes" (expected_line sample_today sample_repr sample_item_untagged)
    = Some (prepare_feature sample_repr (JStr "2")) /\
  field "dislikes" (expected_line sample_today sample_repr sample_item_untagged)
    = Some (prepare_feature sample_repr (JInt 0)).
Proof.
  destruct (counts_of_row sample_today sample_repr sample_item_untagged
              _ eq_refl) as (Hview & Hlikes & _).
  split; [exact Hview | exact (Hlikes eq_refl)].
Defined.

Lemma missing_texts_are_empty_fields_witness :
  field "publishedAt"
        (expected_line sample_today sample_repr sample_item_untagged)
    = Some (quoted "") /\
  field "duration" (expected_line sample_today sample_repr sample_item_untagged)
    = Some (quoted "") /\
  field "thumbnail_link"
        (expected_line sample_today sample_repr sample_item_untagged)
    = Some (quoted "").
Proof.
  destruct (missing_texts_are_empty_fields sample_today sample_repr
              sample_item_untagged _ eq_refl) as (Htext & Hduration & Hlink & _).
  split; [|split].
  - apply Htext; [cbn; tauto | reflexivity].
  - exact (Hduration eq_refl).
  - exact (Hlink eq_refl).
Defined.

Lemma sample_fetched_two_pages :
  fetched sample_today sample_repr api_three_pages "US" "KEY" None 0 "&"
    [page1; page2]
    (rows_of (get_videos sample_today sample_repr (page_items page1)) ++
     rows_of (get_videos sample_today sample_repr (page_items page2)) ++ [])
    2 "pageToken=T3&".
Proof.
  apply (fetched_page sample_today sample_repr api_three_pages "US" "KEY" None
           0 "&" page1 [page2] _ _ "pageToken=T2&" 2 "pageToken=T3&");
    [reflexivity | reflexivity | reflexivity |].
  apply (fetched_page sample_today sample_repr api_three_pages "US" "KEY" None
           1 "pageToken=T2&" page2 [] _ [] "pageToken=T3&" 2 "pageToken=T3&");
    [reflexivity | reflexivity | reflexivity | apply fetched_none].
Defined.

Lemma get_pages_until_no_token_witness :
  get_pages sample_today sample_repr api_three_pages 3 "US" "KEY" None
    (mkWorld 0 []) =
  (Ret ((rows_of (get_videos sample_today sample_repr (page_items page1)) ++
         rows_of (get_videos sample_today sample_repr (page_items page2)) ++ []) ++
        rows_of (get_videos sample_today sample_repr (page_items page3)))%list,
   mkWorld 3 []).
Proof.
  exact (get_pages_until_no_token sample_today sample_repr api_three_pages 0
           "US" "KEY" None (mkWorld 0 []) [page1; page2] _ 2 "pageToken=T3&"
           page3 _ sample_fetched_two_pages eq_refl eq_refl eq_refl).
Defined.

Lemma get_pages_odd_bodies_witness :
  get_pages sample_today sample_repr (api_second_page_status 200) 2
    "US" "KEY" None (mkWorld 0 []) =
  (Ret (rows_of (get_videos sample_today sample_repr (page_items page1)) ++ [])%list,
   mkWorld 2 []).
Proof.
  assert (F : fetched sample_today sample_repr (api_second_page_status 200)
                "US" "KEY" None 0 "&" [page1]
                (rows_of (get_videos sample_today sample_repr (page_items page1)) ++ [])
                1 "pageToken=T2&").
  { apply (fetched_page sample_today sample_repr (api_second_page_status 200)
             "US" "KEY" None 0 "&" page1 [] _ [] "pageToken=T2&" 1 "pageToken=T2&");
      [reflexivity | reflexivity | reflexivity | apply fetched_none]. }
  exact (proj1 (get_pages_odd_bodies sample_today sample_repr
                  (api_second_page_status 200) 0 "US" "KEY" None (mkWorld 0 [])
                  [page1] _ 1 "pageToken=T2&" JNull F eq_refl) eq_refl).
Defined.

Lemma get_pages_never_ends_on_endless_tokens_witness :
  get_pages sample_today sample_repr api_endless 7 "US" "KEY" None (mkWorld 0 [])
    = (OutOfFuel, mkWorld 7 []).
Proof.
  apply (get_pages_never_ends_on_endless_tokens sample_today sample_repr
           api_endless "US" "KEY" None).
  intros n url. exists [("nextPageToken", JStr "T")], [].
  repeat split.
Defined.

Lemma forbidden_ends_the_run_witness :
  get_data sample_today sample_repr (api_second_page_status 403) disk_yes 2
    ["US"; "GB"] "KEY" "output" false (mkWorld 0 []) = (Exit 1, mkWorld 2 []).
Proof.
  assert (F : fetched sample_today sample_repr (api_second_page_status 403)
                "US" "KEY" None 0 "&" [page1]
                (rows_of (get_videos sample_today sample_repr (page_items page1)) ++ [])
                1 "pageToken=T2&").
  { apply (fetched_page sample_today sample_repr (api_second_page_status 403)
             "US" "KEY" None 0 "&" page1 [] _ [] "pageToken=T2&" 1 "pageToken=T2&");
      [reflexivity | reflexivity | reflexivity | apply fetched_none]. }
  destruct (forbidden_ends_the_run sample_today sample_repr
              (api_second_page_status 403) disk_yes 0 "US" "KEY" None
              (mkWorld 0 []) [page1] _ 1 "pageToken=T2&" JNull F eq_refl)
    as (_ & Hrun & _).
  exact (Hrun eq_refl ["GB"] "output").
Defined.

Lemma dead_network_run_witness :
  get_data sample_today sample_repr (api_always_status 500) disk_yes 1
    ["US"; "GB"] "KEY" "output" true (mkWorld 0 []) = (Ret tt, mkWorld 26 []).
Proof.
  exact (proj1 (dead_network_run sample_today sample_repr
                  (api_always_status 500) disk_yes 0 ["US"; "GB"] "KEY" "output"
                  (mkWorld 0 []) (fun n url => eq_refl))).
Defined.


Lemma setup_returns_clean_values_witness :
  setup sample_files "api_key.txt" "country_codes.txt" (mkWorld 0 [])
    = (Ret ("KEY", ["US"; " GB"]), mkWorld 0 []) /\
  "KEY" <> "" /\ strip "KEY" = "KEY" /\ occurs newline "KEY" = false /\
  ["US"; " GB"] <> [] /\
  Forall (fun code =>
            code <> "" /\ rstrip code = code /\ occurs newline code = false)
         ["US"; " GB"].
Proof.
  split; [reflexivity|].
  exact (proj2 (setup_returns_clean_values sample_files "api_key.txt"
                  "country_codes.txt" (mkWorld 0 []) (mkWorld 0 []) "KEY"
                  ["US"; " GB"] eq_refl)).
Defined.

Lemma setup_failure_stops_the_script_witness :
  main sample_today sample_repr api_three_pages disk_yes sample_files 3
    "late_key.txt" "country_codes.txt" "output" true (mkWorld 0 [])
    = (Exit 1, mkWorld 0 []).
Proof.
  apply (setup_failure_stops_the_script sample_today sample_repr
           api_three_pages disk_yes sample_files).
  right. left. exists sample_late_key_text. split; reflexivity.
Defined.
